(** * Language-server sessions: a shallow embedding of [plugin/core/sessions.py]

    Part I follows the Python sources: dynamically typed values, the
    exception-and-trace monad in which methods run, the client object a
    session talks to, [create_session] and the [Session] class, the
    per-window session table exercised by [test_windows.py], and the fixtures
    of the test suites. Part II states and proves what the specification
    says about them. *)

From Stdlib Require Import ZArith.
From stdpp Require Import base option list gmap strings fin_maps.

Local Open Scope string_scope.
Local Open Scope list_scope.
Local Open Scope Z_scope.

(* ===================================================================== *)
(** * Part I: the embedding *)
(* ===================================================================== *)

(* ===================================================================== *)
(** ** Python values *)
(* ===================================================================== *)

(** The JSON-like payloads of the protocol ([Dict[str, Any]] and friends).
    A Python [dict] with string keys is a [gmap string value]. *)
#[warnings="-register-all"]
Inductive value : Type :=
  | VNone
  | VBool (b : bool)
  | VInt (z : Z)
  | VStr (s : string)
  | VList (l : list value)
  | VDict (d : gmap string value).

(** Python truthiness, as used by [if x:] and [x if c else y]. *)
Definition truthy (v : value) : bool :=
  match v with
  | VNone => false
  | VBool b => b
  | VInt z => negb (z =? 0)
  | VStr s => negb (String.eqb s "")
  | VList l => match l with [] => false | _ => true end
  | VDict d => negb (bool_decide (d = ∅))
  end.

(** [v is not False]: identity with the singleton [False]. *)
Definition is_not_False (v : value) : bool :=
  match v with
  | VBool false => false
  | _ => true
  end.

(** A dict display [{k1: v1, ..., kn: vn}]: later keys overwrite earlier ones. *)
Definition dict (kvs : list (string * value)) : gmap string value :=
  foldl (fun d kv => <[kv.1 := kv.2]> d) ∅ kvs.

(** The exceptions the modelled code can run into, all of them instances of
    [Exception]. *)
Inductive exn : Type :=
  | AttributeError
  | TypeError
  | IndexError
  | OtherException (what : string).

(** [obj.get(key, default)] on an arbitrary value: only a dict has [get]. *)
Definition py_get (obj : value) (key : string) (dflt : value) : exn + value :=
  match obj with
  | VDict d => inr (default dflt (d !! key))
  | _ => inl AttributeError
  end.

(** [key in container] for a string key. *)
Definition py_contains (container : value) (key : string) : exn + bool :=
  match container with
  | VDict d => inr (bool_decide (is_Some (d !! key)))
  | VList l =>
      inr (existsb (fun v => match v with VStr s => String.eqb s key | _ => false end) l)
  | VStr s => inr (match String.index 0 key s with Some _ => true | None => false end)
  | _ => inl TypeError
  end.

(** [container[key]] for a string key: only a dict can be subscripted by one. *)
Definition py_getitem (container : value) (key : string) : exn + value :=
  match container with
  | VDict d => match d !! key with Some v => inr v | None => inl (OtherException "KeyError") end
  | _ => inl TypeError
  end.

(** [l[i]] on a list, with Python's negative indices. *)
Definition py_index {A : Type} (l : list A) (i : Z) : exn + A :=
  let n := Z.of_nat (length l) in
  let j := if i <? 0 then i + n else i in
  if (0 <=? j) && (j <? n)
  then match l !! Z.to_nat j with Some x => inr x | None => inl IndexError end
  else inl IndexError.

(** [for x in v]: the items a value yields when iterated. *)
Definition py_iter (v : value) : exn + list value :=
  match v with
  | VList l => inr l
  | VDict d => inr ((fun kv => VStr kv.1) <$> map_to_list d)
  | VStr s => inr ((fun c => VStr (String c EmptyString)) <$> String.list_ascii_of_string s)
  | _ => inl TypeError
  end.

(* ===================================================================== *)
(** ** Methods as state transformers that may raise *)
(* ===================================================================== *)

Inductive res (A : Type) : Type :=
  | Ok (a : A)
  | Raise (e : exn).
Arguments Ok {A} a.
Arguments Raise {A} e.

(** A computation over a mutable state [St]: the state that is returned
    holds every mutation made before an exception, as in Python. *)
Definition M (St A : Type) : Type := St -> res A * St.

Definition ret {St A} (a : A) : M St A := fun st => (Ok a, st).

Definition bind {St A B} (m : M St A) (k : A -> M St B) : M St B :=
  fun st =>
    match m st with
    | (Ok a, st') => k a st'
    | (Raise e, st') => (Raise e, st')
    end.

Definition raise {St A} (e : exn) : M St A := fun st => (Raise e, st).

Definition gets {St A} (f : St -> A) : M St A := fun st => (Ok (f st), st).

Definition modify {St} (f : St -> St) : M St unit := fun st => (Ok tt, f st).

(** Lift the outcome of a pure Python operation. *)
Definition lift {St A} (r : exn + A) : M St A :=
  match r with
  | inr a => ret a
  | inl e => raise e
  end.

(** [try: body  except Exception: handler]. *)
Definition try_except {St A} (body : M St A) (handler : M St A) : M St A :=
  fun st =>
    match body st with
    | (Ok a, st') => (Ok a, st')
    | (Raise _, st') => handler st'
    end.

Declare Scope py_scope.
Delimit Scope py_scope with py.
Notation "x <- c1 ;; c2" := (bind c1 (fun x => c2))
  (at level 100, c1 at next level, right associativity) : py_scope.
Notation "c1 ;;; c2" := (bind c1 (fun _ => c2))
  (at level 100, right associativity) : py_scope.
Local Open Scope py_scope.

(** Run [f] on every element, left to right, stopping at the first raise. *)
Fixpoint mapM {A B : Type} (f : A -> exn + B) (l : list A) : exn + list B :=
  match l with
  | [] => inr []
  | x :: l' =>
      match f x with
      | inl e => inl e
      | inr y => match mapM f l' with inl e => inl e | inr ys => inr (y :: ys) end
      end
  end.

(* ===================================================================== *)
(** ** The collaborators of [sessions.py] *)
(* ===================================================================== *)

(** [types.ClientConfig], with the fields [sessions.py] reads. A port or a
    host that is not given is [None]. *)
Record ClientConfig : Type := {
  name : string;
  binary_args : list string;
  tcp_port : option Z;
  tcp_host : option string;
  init_options : value;
}.

(** [types.Settings]: only [log_stderr] is read here. *)
Record Settings : Type := { log_stderr : bool }.

(** Modelled from the spec: [types.ClientStates] is not among the sources.
    [sessions.py] and its tests name [STARTING], [READY] and [STOPPING]; the
    data model of the specification lists a fourth, terminal state, [Ended]. *)
Inductive ClientStates : Type := STARTING | READY | STOPPING | ENDED.

#[global] Instance ClientStates_eq_dec : EqDecision ClientStates.
Proof. solve_decision. Defined.

(** [protocol.Request] and [protocol.Response]. *)
Record Request : Type := { method : string; params : value }.
Record Response : Type := { request_id : value; result : value }.

Definition Request_shutdown : Request := {| method := "shutdown"; params := VNone |}.
Definition Request_initialize (p : value) : Request :=
  {| method := "initialize"; params := p |}.

(** Handles of operating-system resources and of host callables. *)
Definition Process := nat.
Definition Transport := nat.
Definition hostfn := nat.

(** The callables that [Session] hands to its client and to the host:
    bound methods, the two [lambda]s of [end], and the closure
    [send_user_choice], which captures [request_id] and [titles]. *)
Inductive callable : Type :=
  | bound__handle_log_message
  | bound__handle_show_message
  | bound__handle_show_message_request
  | bound__handle_initialize_result
  | lambda_result__handle_shutdown_result   (* lambda result: self.__handle_shutdown_result() *)
  | lambda__handle_shutdown_result          (* lambda: self.__handle_shutdown_result() *)
  | send_user_choice_closure (request_id : value) (titles : list value).

(** The client object behind [Session.client]: the [MockClient] of
    [test_session.py], with its table of canned responses and its two handler
    dicts, or a client made by [rpc.Client] or [attach_stdio_client]. The
    latter are not among the sources; like the mock they keep the handlers
    registered on them, and they answer a request later. *)
Inductive ClientImpl : Type :=
  | rpc_Client (transport : option Transport)
  | stdio_Client (process : Process)
  | MockClient (responses : gmap string value) (_async_response_callback : option hostfn).

Record Client : Type := {
  impl : ClientImpl;
  _notification_handlers : gmap string callable;
  _request_handlers : gmap string callable;
}.

Definition new_Client (i : ClientImpl) : Client :=
  {| impl := i; _notification_handlers := ∅; _request_handlers := ∅ |}.

Record Session : Type := {
  config : ClientConfig;
  project_path : string;
  state : ClientStates;
  _on_created : option hostfn;
  _on_ended : option hostfn;
  capabilities : value;
  client : option Client;
}.

(** Every call that leaves the module is recorded, oldest first. *)
Inductive event : Type :=
  | Ev_start_server (args : list string) (cwd : string) (env : gmap string string) (log : bool)
  | Ev_start_tcp_transport (port : Z) (host : option string)
  | Ev_attach_stdio_client (p : Process)
  | Ev_terminate (p : Process)
  | Ev_debug (args : list value)
  | Ev_on_notification (name : string) (handler : callable)
  | Ev_on_request (name : string) (handler : callable)
  | Ev_send_request (r : Request) (on_success : callable) (on_error : option callable)
  | Ev_async_response (f : hostfn) (on_success : callable) (response : value)
  | Ev_send_response (r : Response)
  | Ev_exit
  | Ev_server_log (name : string) (message : value)
  | Ev_message_dialog (message : value)
  | Ev_show_quick_panel (titles : list value) (on_select : callable)
  | Ev_on_created (f : hostfn) (s : Session)
  | Ev_on_ended (f : hostfn) (name : string).

(** The state a method of [Session] runs in: the object and the trace. *)
Record World : Type := { self : Session; trace : list event }.

Definition log_event (e : event) : M World unit :=
  modify (fun w => {| self := self w; trace := trace w ++ [e] |}).

Definition update_self (f : Session -> Session) : M World unit :=
  modify (fun w => {| self := f (self w); trace := trace w |}).

(** Field assignments [self.state = v], [self.capabilities = v], [self.client = v]. *)
Definition set_state (v : ClientStates) (s : Session) : Session :=
  {| config := config s; project_path := project_path s; state := v;
     _on_created := _on_created s; _on_ended := _on_ended s;
     capabilities := capabilities s; client := client s |}.

Definition set_capabilities (v : value) (s : Session) : Session :=
  {| config := config s; project_path := project_path s; state := state s;
     _on_created := _on_created s; _on_ended := _on_ended s;
     capabilities := v; client := client s |}.

Definition set_client (v : option Client) (s : Session) : Session :=
  {| config := config s; project_path := project_path s; state := state s;
     _on_created := _on_created s; _on_ended := _on_ended s;
     capabilities := capabilities s; client := v |}.

(* ===================================================================== *)
(** ** [sessions.py] *)
(* ===================================================================== *)

(** [extract_message] *)
Definition extract_message (response : value) : exn + value :=
  if truthy response then py_get response "message" (VStr "???") else inr (VStr "???").

(** [self.client], about to be used as the receiver of a method call. *)
Definition the_client : M World Client :=
  c <- gets (fun w => client (self w));;
  match c with
  | Some c => ret c
  | None => raise AttributeError
  end.

(** [self.client.on_notification(name, handler)] *)
Definition client_on_notification (nm : string) (handler : callable) : M World unit :=
  c <- the_client;;
  update_self (set_client (Some
    {| impl := impl c;
       _notification_handlers := <[nm := handler]> (_notification_handlers c);
       _request_handlers := _request_handlers c |}));;;
  log_event (Ev_on_notification nm handler).

(** [self.client.on_request(name, handler)] *)
Definition client_on_request (nm : string) (handler : callable) : M World unit :=
  c <- the_client;;
  update_self (set_client (Some
    {| impl := impl c;
       _notification_handlers := _notification_handlers c;
       _request_handlers := <[nm := handler]> (_request_handlers c) |}));;;
  log_event (Ev_on_request nm handler).

(** [self.client.send_response(response)] *)
Definition client_send_response (r : Response) : M World unit :=
  _ <- the_client;;
  log_event (Ev_send_response r).

(** [self.client.exit()] *)
Definition client_exit : M World unit :=
  _ <- the_client;;
  log_event Ev_exit.

(** [has_capability] *)
Definition has_capability (s : Session) (capability : string) : exn + bool :=
  match py_contains (capabilities s) capability with
  | inl e => inl e
  | inr false => inr false
  | inr true =>
      match py_getitem (capabilities s) capability with
      | inl e => inl e
      | inr v => inr (is_not_False v)
      end
  end.

(** [get_capability] *)
Definition get_capability (s : Session) (capability : string) : exn + value :=
  py_get (capabilities s) capability VNone.

(** [__handle_log_message] *)
Definition __handle_log_message (response : value) : M World unit :=
  nm <- gets (fun w => name (config (self w)));;
  msg <- lift (extract_message response);;
  log_event (Ev_server_log nm msg).

(** [__handle_show_message] *)
Definition __handle_show_message (response : value) : M World unit :=
  msg <- lift (extract_message response);;
  log_event (Ev_message_dialog msg).

(** The closure [send_user_choice] of [__handle_show_message_request]. *)
Definition send_user_choice (request_id : value) (titles : list value) (index : Z)
  : M World unit :=
  if index =? -1 then ret tt
  else
    title <- lift (py_index titles index);;
    let result := VDict (dict [("title", title)]) in
    let response := {| request_id := request_id; result := result |} in
    client_send_response response.

(** [__handle_show_message_request] *)
Definition __handle_show_message_request (response : value) (request_id : value)
  : M World unit :=
  actions <- lift (py_get response "actions" (VList []));;
  if negb (truthy actions) then ret tt
  else
    items <- lift (py_iter actions);;
    titles <- lift (mapM (fun action => py_get action "title" VNone) items);;
    log_event (Ev_show_quick_panel titles (send_user_choice_closure request_id titles)).

(** [__handle_initialize_result] *)
Definition __handle_initialize_result (result : value) : M World unit :=
  update_self (set_state READY);;;
  caps <- lift (py_get result "capabilities" (VDict ∅));;
  update_self (set_capabilities caps);;;
  on_created <- gets (fun w => _on_created (self w));;
  match on_created with
  | Some f => s <- gets self;; log_event (Ev_on_created f s)
  | None => ret tt
  end.

(** [__handle_shutdown_result] *)
Definition __handle_shutdown_result : M World unit :=
  client_exit;;;
  update_self (set_client None);;;
  update_self (set_capabilities (VDict ∅));;;
  on_ended <- gets (fun w => _on_ended (self w));;
  match on_ended with
  | Some f => nm <- gets (fun w => name (config (self w)));; log_event (Ev_on_ended f nm)
  | None => ret tt
  end.

(** Calling one of the session's callables with positional arguments; a
    wrong number of arguments is a [TypeError], as is an index that is not
    an integer. *)
Definition call (f : callable) (args : list value) : M World unit :=
  match f, args with
  | bound__handle_log_message, [response] => __handle_log_message response
  | bound__handle_show_message, [response] => __handle_show_message response
  | bound__handle_show_message_request, [response; request_id] =>
      __handle_show_message_request response request_id
  | bound__handle_initialize_result, [result] => __handle_initialize_result result
  | lambda_result__handle_shutdown_result, [_] => __handle_shutdown_result
  | lambda__handle_shutdown_result, [] => __handle_shutdown_result
  | send_user_choice_closure request_id titles, [VInt index] =>
      send_user_choice request_id titles index
  | send_user_choice_closure request_id titles, [VBool b] =>
      send_user_choice request_id titles (if b then 1 else 0)
  | _, _ => raise TypeError
  end.

(** [self.client.send_request(request, on_success, on_error)]. The
    [MockClient] of the tests answers at once with [responses.get(method)],
    unless it was given an [async_response] hook; a real client answers
    later, when the host delivers the response to the recorded callback. *)
Definition client_send_request (r : Request) (on_success : callable)
    (on_error : option callable) : M World unit :=
  c <- the_client;;
  log_event (Ev_send_request r on_success on_error);;;
  match impl c with
  | MockClient responses async_response =>
      let response := default VNone (responses !! method r) in
      log_event (Ev_debug [VStr "TEST: responding to"; VStr (method r); VStr "with"; response]);;;
      match async_response with
      | Some f => log_event (Ev_async_response f on_success response)
      | None => call on_success [response]
      end
  | _ => ret tt
  end.

(** [end] *)
Definition end_ : M World unit :=
  update_self (set_state STOPPING);;;
  client_send_request Request_shutdown
    lambda_result__handle_shutdown_result (Some lambda__handle_shutdown_result).

(** [__setup_special_notification_and_request_handlers] *)
Definition __setup_special_notification_and_request_handlers : M World unit :=
  client_on_notification "window/logMessage" bound__handle_log_message;;;
  client_on_notification "window/showMessage" bound__handle_show_message;;;
  client_on_request "window/showMessageRequest" bound__handle_show_message_request.

Section Externals.

(** What the module imports from the operating system and from
    [process.py], [transports.py], [protocol.py] and [url.py]. A spawn or a
    connection attempt yields a handle or nothing; [terminate] may raise. *)
Variable os_getpid : Z.
Variable filename_to_uri : string -> string.
Variable completion_item_kinds : list Z.
Variable symbol_kinds : list Z.
Variable start_server : list string -> string -> gmap string string -> bool -> option Process.
Variable start_tcp_transport : Z -> option string -> option Transport.
Variable terminate : Process -> option exn.

(** [get_initialize_params] *)
Definition get_initialize_params (project_path : string) (config : ClientConfig) : value :=
  let D kvs := VDict (dict kvs) in
  let initializeParams :=
    dict [
      ("processId", VInt os_getpid);
      ("rootUri", VStr (filename_to_uri project_path));
      ("rootPath", VStr project_path);
      ("capabilities", D [
        ("textDocument", D [
          ("synchronization", D [("didSave", VBool true)]);
          ("hover", D [("contentFormat", VList [VStr "markdown"; VStr "plaintext"])]);
          ("completion", D [
            ("completionItem", D [("snippetSupport", VBool true)]);
            ("completionItemKind", D [("valueSet", VList (VInt <$> completion_item_kinds))])]);
          ("signatureHelp", D [
            ("signatureInformation", D [
              ("documentationFormat", VList [VStr "markdown"; VStr "plaintext"]);
              ("parameterInformation", D [("labelOffsetSupport", VBool true)])])]);
          ("references", D []);
          ("documentHighlight", D []);
          ("documentSymbol", D [
            ("symbolKind", D [("valueSet", VList (VInt <$> symbol_kinds))])]);
          ("formatting", D []);
          ("rangeFormatting", D []);
          ("definition", D []);
          ("codeAction", D [
            ("codeActionLiteralSupport", D [
              ("codeActionKind", D [("valueSet", VList [])])])]);
          ("rename", D [])]);
        ("workspace", D [
          ("applyEdit", VBool true);
          ("didChangeConfiguration", D []);
          ("executeCommand", D []);
          ("symbol", D [
            ("symbolKind", D [("valueSet", VList (VInt <$> symbol_kinds))])])])])]
  in
  if truthy (init_options config)
  then VDict (<["initializationOptions" := init_options config]> initializeParams)
  else VDict initializeParams.

(** [__initialize] *)
Definition __initialize : M World unit :=
  s <- gets self;;
  let params := get_initialize_params (project_path s) (config s) in
  client_send_request (Request_initialize params) bound__handle_initialize_result None.

(** [Session.__init__], run on the freshly allocated object. *)
Definition __init__ (config : ClientConfig) (project_path : string) (client : Client)
    (on_created on_ended : option hostfn) : M (list event) Session :=
  fun tr =>
    let self0 :=
      {| config := config; project_path := project_path; state := STARTING;
         _on_created := on_created; _on_ended := on_ended;
         capabilities := VDict ∅; client := Some client |} in
    match (__setup_special_notification_and_request_handlers;;; __initialize)
            {| self := self0; trace := tr |} with
    | (Ok _, w) => (Ok (self w), trace w)
    | (Raise e, w) => (Raise e, trace w)
    end.

Definition say (e : event) : M (list event) unit := modify (fun tr => tr ++ [e]).

(** A port is used when it is neither [None] nor [0]. *)
Definition port_given (p : option Z) : option Z :=
  match p with
  | Some n => if n =? 0 then None else Some n
  | None => None
  end.

(** [create_session] *)
Definition create_session (config : ClientConfig) (project_path : string)
    (env : gmap string string) (settings : Settings)
    (on_created on_ended : option hostfn) (bootstrap_client : option Client)
  : M (list event) (option Session) :=
  match binary_args config with
  | _ :: _ =>
      say (Ev_start_server (binary_args config) project_path env (log_stderr settings));;;
      match start_server (binary_args config) project_path env (log_stderr settings) with
      | Some process =>
          match port_given (tcp_port config) with
          | Some port =>
              say (Ev_start_tcp_transport port (tcp_host config));;;
              match start_tcp_transport port (tcp_host config) with
              | Some transport =>
                  session <- __init__ config project_path
                               (new_Client (rpc_Client (Some transport))) on_created on_ended;;
                  ret (Some session)
              | None =>
                  try_except
                    (say (Ev_terminate process);;;
                     match terminate process with
                     | Some e => raise e
                     | None => ret tt
                     end)
                    (ret tt);;;
                  ret None
              end
          | None =>
              say (Ev_attach_stdio_client process);;;
              session <- __init__ config project_path
                           (new_Client (stdio_Client process)) on_created on_ended;;
              ret (Some session)
          end
      | None => ret None
      end
  | [] =>
      match port_given (tcp_port config) with
      | Some port =>
          say (Ev_start_tcp_transport port None);;;
          let transport := start_tcp_transport port None in
          session <- __init__ config project_path
                       (new_Client (rpc_Client transport)) on_created on_ended;;
          ret (Some session)
      | None =>
          match bootstrap_client with
          | Some c =>
              session <- __init__ config project_path c on_created on_ended;;
              ret (Some session)
          | None =>
              say (Ev_debug [VStr "No way to start session"]);;;
              ret None
          end
      end
  end.

End Externals.

(* ===================================================================== *)
(** ** Completion of a request *)
(* ===================================================================== *)

(** Modelled from the spec: [rpc.Client] is not among the sources. Requests
    are fire-and-forget with a completion callback: the response arrives
    later and the host then runs the callback registered for it, the success
    callback on the result, the error callback (if one was given) with the
    arguments it accepts, which for the one error callback of this module,
    the [lambda] of [end], is none. *)
Inductive outcome : Type :=
  | success (result : value)
  | failure.

Definition deliver (on_success : callable) (on_error : option callable) (o : outcome)
  : M World unit :=
  match o with
  | success r => call on_success [r]
  | failure =>
      match on_error with
      | Some f => call f []
      | None => ret tt
      end
  end.

(** What is still to be run for a request: the callbacks a real client holds
    until the response arrives, or the [lambda: on_success(response)] that
    the [MockClient] handed to its [async_response] hook. *)
Inductive pending : Type :=
  | awaiting (r : Request) (on_success : callable) (on_error : option callable)
  | scheduled (on_success : callable) (response : value).

Definition pending_of (e : event) : option pending :=
  match e with
  | Ev_send_request r on_success on_error => Some (awaiting r on_success on_error)
  | Ev_async_response _ on_success response => Some (scheduled on_success response)
  | _ => None
  end.

(** The request sent last. *)
Fixpoint last_request (tr : list event) : option pending :=
  match tr with
  | [] => None
  | e :: tr' =>
      match last_request tr' with
      | Some x => Some x
      | None => pending_of e
      end
  end.

Definition complete_last_request (o : outcome) : M World unit :=
  tr <- gets trace;;
  match last_request tr with
  | Some (awaiting _ on_success on_error) => deliver on_success on_error o
  | Some (scheduled on_success response) => call on_success [response]
  | None => ret tt
  end.

(** The outcome the callbacks of request [r] get to see when the host
    reports [o]: a [MockClient] answers from its table whatever happens. *)
Definition delivered (c : Client) (r : Request) (o : outcome) : outcome :=
  match impl c with
  | MockClient responses _ => success (default VNone (responses !! method r))
  | _ => o
  end.

(** A [MockClient] without [async_response] hook has run the callback by the
    time [send_request] returns. *)
Definition answers_at_once (c : Client) : bool :=
  match impl c with
  | MockClient _ None => true
  | _ => false
  end.

(** A request issued by [m], followed by its completion with outcome [o]. *)
Definition round_trip (m : M World unit) (o : outcome) : M World unit :=
  c <- the_client;;
  m;;;
  if answers_at_once c then ret tt else complete_last_request o.

(** [end()] and the completion of the shutdown request. *)
Definition shutdown_round_trip (o : outcome) : M World unit := round_trip end_ o.

(** Observations on a trace. *)
Definition on_ended_calls (tr : list event) : list (hostfn * string) :=
  omap (fun e => match e with Ev_on_ended f nm => Some (f, nm) | _ => None end) tr.

Definition on_created_calls (tr : list event) : list (hostfn * Session) :=
  omap (fun e => match e with Ev_on_created f s => Some (f, s) | _ => None end) tr.

Definition exit_calls (tr : list event) : nat :=
  length (omap (fun e => match e with Ev_exit => Some tt | _ => None end) tr).

(* ===================================================================== *)
(** ** What the methods leave behind *)
(* ===================================================================== *)

(** The session that [end()] and the completion handler leave behind. *)
Definition after_shutdown (s : Session) : Session :=
  {| config := config s; project_path := project_path s; state := STOPPING;
     _on_created := _on_created s; _on_ended := _on_ended s;
     capabilities := VDict ∅; client := None |}.

(** What a client adds to the trace between the request and its completion. *)
Definition request_events (c : Client) (r : Request) (on_success : callable)
    (on_error : option callable) : list event :=
  Ev_send_request r on_success on_error ::
  match impl c with
  | MockClient responses async_response =>
      let response := default VNone (responses !! method r) in
      Ev_debug [VStr "TEST: responding to"; VStr (method r); VStr "with"; response] ::
      match async_response with
      | Some f => [Ev_async_response f on_success response]
      | None => []
      end
  | _ => []
  end.

Definition on_ended_events (s : Session) : list event :=
  match _on_ended s with
  | Some f => [Ev_on_ended f (name (config s))]
  | None => []
  end.

Definition on_created_events (s : Session) : list event :=
  match _on_created s with
  | Some f => [Ev_on_created f s]
  | None => []
  end.

(** The client after [__setup_special_notification_and_request_handlers]. *)
Definition with_handlers (c : Client) : Client :=
  {| impl := impl c;
     _notification_handlers :=
       <["window/showMessage" := bound__handle_show_message]>
         (<["window/logMessage" := bound__handle_log_message]> (_notification_handlers c));
     _request_handlers :=
       <["window/showMessageRequest" := bound__handle_show_message_request]>
         (_request_handlers c) |}.

Definition setup_events : list event :=
  [Ev_on_notification "window/logMessage" bound__handle_log_message;
   Ev_on_notification "window/showMessage" bound__handle_show_message;
   Ev_on_request "window/showMessageRequest" bound__handle_show_message_request].

Definition is_dict (v : value) : bool :=
  match v with
  | VDict _ => true
  | _ => false
  end.

(** [action.get("title")] on a well-formed action. *)
Definition title_of (action : value) : value :=
  match action with
  | VDict d => default VNone (d !! "title")
  | _ => VNone
  end.

(** *** Fields no method assigns *)

Definition frame (s : Session) : ClientConfig * string * option hostfn * option hostfn :=
  (config s, project_path s, _on_created s, _on_ended s).

Definition keeps_frame {A} (m : M World A) : Prop :=
  forall w, frame (self (m w).2) = frame (self w).

(* ===================================================================== *)
(** ** The window's table of sessions *)
(* ===================================================================== *)

(** [test_sublime.MockView]: a file name and the [syntax] setting. *)
Record MockView : Type := { _file_name : option string; syntax : string }.

Module Documents.

(** [test_windows.MockDocuments] *)
Record MockDocuments : Type := {
  _documents : list string;
  _sessions : gmap string Session;
}.

Definition empty : MockDocuments := {| _documents := []; _sessions := ∅ |}.

(** [add_session] *)
Definition add_session (session : Session) (d : MockDocuments) : MockDocuments :=
  {| _documents := _documents d;
     _sessions := <[name (config session) := session]> (_sessions d) |}.

(** [handle_view_opened] *)
Definition handle_view_opened (view : MockView) (d : MockDocuments) : MockDocuments :=
  match _file_name view with
  | Some file_name =>
      if String.eqb file_name "" then d
      else {| _documents := _documents d ++ [file_name]; _sessions := _sessions d |}
  | None => d
  end.

(** [remove_session]: [del] of a name that is not there is a [KeyError]. *)
Definition remove_session (config_name : string) (d : MockDocuments) : exn + MockDocuments :=
  match _sessions d !! config_name with
  | Some _ =>
      inr {| _documents := _documents d; _sessions := delete config_name (_sessions d) |}
  | None => inl (OtherException "KeyError")
  end.

(** [reset] *)
Definition reset (d : MockDocuments) : MockDocuments :=
  {| _documents := []; _sessions := _sessions d |}.

End Documents.

Module Windows.

(** Modelled from the spec: [windows.py] is not among the sources, only its
    tests are. A Window Session Table owns a mapping from configuration name
    to Connection, a cached project path and the window's document tracker.
    [live] is a ghost field: every Connection the factory produced for this
    window that has not been ended since, oldest first. *)
Record WindowManager : Type := {
  folders : list string;
  _sessions : gmap string Session;
  _project_path : option string;
  _documents : Documents.MockDocuments;
  _initialized : gset string;
  live : list (string * Session);
}.

(** The Connections of this window that run configuration [nm]. *)
Definition connections_for (nm : string) (wm : WindowManager) : list Session :=
  omap (fun p => if decide (p.1 = nm) then Some p.2 else None) (live wm).

Section Table.

(** The collaborators: the configuration resolver, the dispatcher's veto
    gate and the connection factory, which is given the project path and the
    configuration and may fail. *)
Variable syntax_configs : MockView -> list ClientConfig.
Variable on_start : string -> bool.
Variable start_session : option string -> ClientConfig -> option Session.

(** Modelled from the spec: a table for a window with the given folders; the
    project path it caches is the window's first folder. *)
Definition new_WindowManager (window_folders : list string) (docs : Documents.MockDocuments)
  : WindowManager :=
  {| folders := window_folders; _sessions := ∅; _project_path := head window_folders;
     _documents := docs; _initialized := ∅; live := [] |}.

(** Modelled from the spec: [getConnection(configName)], which the tests call
    [get_session]. *)
Definition get_session (wm : WindowManager) (config_name : string) : option Session :=
  _sessions wm !! config_name.

(** Modelled from the spec: starting one configuration. The table checks its
    existing entries before starting; the start is gated by [on_start]; a
    Connection the factory returns is entered under the configuration's name,
    and once its handshake has succeeded it is registered with the document
    tracker and [on_initialized] is run. *)
Definition _start_client (wm : WindowManager) (cfg : ClientConfig) : WindowManager :=
  match _sessions wm !! name cfg with
  | Some _ => wm
  | None =>
      if on_start (name cfg) then
        match start_session (_project_path wm) cfg with
        | Some session =>
            let ready := bool_decide (state session = READY) in
            {| folders := folders wm;
               _sessions := <[name cfg := session]> (_sessions wm);
               _project_path := _project_path wm;
               _documents := if ready then Documents.add_session session (_documents wm)
                             else _documents wm;
               _initialized := if ready then {[name cfg]} ∪ _initialized wm
                               else _initialized wm;
               live := live wm ++ [(name cfg, session)] |}
        | None => wm
        end
      else wm
  end.

(** Modelled from the spec: ending every Connection of the window. *)
Definition end_sessions (wm : WindowManager) : WindowManager :=
  {| folders := folders wm; _sessions := ∅; _project_path := _project_path wm;
     _documents := {| Documents._documents := Documents._documents (_documents wm);
                      Documents._sessions := ∅ |};
     _initialized := _initialized wm; live := [] |}.

(** Modelled from the spec: [activateDocument]. If the window's project path
    has changed since the last activation, all Connections are ended (they
    were rooted at the old path); otherwise a Connection is started for every
    applicable configuration that has none, and the document is registered. *)
Definition activate_view (view : MockView) (wm : WindowManager) : WindowManager :=
  let new_project_path := head (folders wm) in
  if bool_decide (new_project_path = _project_path wm) then
    let wm' := foldl _start_client wm (syntax_configs view) in
    {| folders := folders wm'; _sessions := _sessions wm';
       _project_path := _project_path wm';
       _documents := Documents.handle_view_opened view (_documents wm');
       _initialized := _initialized wm'; live := live wm' |}
  else
    end_sessions
      {| folders := folders wm; _sessions := _sessions wm;
         _project_path := new_project_path; _documents := _documents wm;
         _initialized := _initialized wm; live := live wm |}.

(** Table and Connections agree: a name with an entry has exactly that one
    Connection, a name without has none. *)
Definition consistent (wm : WindowManager) : Prop :=
  forall nm, connections_for nm wm = option_list (_sessions wm !! nm).

End Table.

End Windows.

(* ===================================================================== *)
(** ** The fixtures of [test_session.py] *)
(* ===================================================================== *)

Module TestSession.

Definition completion_provider : value :=
  VDict (dict [("triggerCharacters", VList [VStr "."]); ("resolveProvider", VBool false)]).

Definition server_capabilities : gmap string value :=
  dict [("testing", VBool true);
        ("hoverProvider", VBool true);
        ("completionProvider", completion_provider);
        ("textDocumentSync", VBool true)].

Definition initialize_response : gmap string value :=
  dict [("capabilities", VDict server_capabilities)].

Definition responses : gmap string value :=
  dict [("initialize", VDict initialize_response)].

(** [MockClient()] *)
Definition mock_client : Client := new_Client (MockClient responses None).

(** [test_config = ClientConfig("test", [], None, languages=[test_language])] *)
Definition test_config : ClientConfig :=
  {| name := "test"; binary_args := []; tcp_port := None; tcp_host := None;
     init_options := VNone |}.

Definition created_callback : hostfn := 1%nat.
Definition ended_callback : hostfn := 2%nat.

(** The host the fixtures run on. *)
Definition pid : Z := 4242.
Definition filename_to_uri (path : string) : string := "file://" +:+ path.
Definition settings : Settings := {| log_stderr := false |}.

(** An environment in which nothing can be spawned or connected to. *)
Definition no_server (args : list string) (cwd : string) (env : gmap string string)
  (log : bool) : option Process := None.
Definition no_transport (port : Z) (host : option string) : option Transport := None.
Definition quiet_terminate (p : Process) : option exn := None.

(** [setUp]: the session the tests start from. *)
Definition setUp : res (option Session) * list event :=
  create_session pid filename_to_uri [] [] no_server no_transport quiet_terminate
    test_config "/" ∅ settings
    (Some created_callback) (Some ended_callback) (Some mock_client) [].

(** [self.session] of the tests: what [setUp] is expected to have made. *)
Definition session : Session :=
  {| config := test_config; project_path := "/"; state := READY;
     _on_created := Some created_callback; _on_ended := Some ended_callback;
     capabilities := VDict server_capabilities;
     client := Some (with_handlers mock_client) |}.

(** A server that is spawned and spoken to over its standard streams. *)
Definition stdio_config : ClientConfig :=
  {| name := "test"; binary_args := ["server"]; tcp_port := None; tcp_host := None;
     init_options := VNone |}.

Definition spawning_server (args : list string) (cwd : string) (env : gmap string string)
  (log : bool) : option Process := Some 7%nat.

Definition stdio_client : Client := with_handlers (new_Client (stdio_Client 7%nat)).

(** The session over that server while the handshake is outstanding ... *)
Definition starting_session : Session :=
  {| config := stdio_config; project_path := "/"; state := STARTING;
     _on_created := Some created_callback; _on_ended := Some ended_callback;
     capabilities := VDict ∅; client := Some stdio_client |}.

(** ... and once the server has answered with [initialize_response]. *)
Definition stdio_session : Session :=
  {| config := stdio_config; project_path := "/"; state := READY;
     _on_created := Some created_callback; _on_ended := Some ended_callback;
     capabilities := VDict server_capabilities; client := Some stdio_client |}.

(** A server that starts but does not listen on its port, and whose handle
    refuses to be terminated. *)
Definition tcp_config : ClientConfig :=
  {| name := "tcp"; binary_args := ["server"; "--port"; "9000"]; tcp_port := Some 9000;
     tcp_host := Some "localhost"; init_options := VNone |}.

Definition failing_terminate (p : Process) : option exn := Some (OtherException "OSError").

(** A [window/showMessageRequest] offering two actions, and a
    [window/logMessage] notification. *)
Definition yes : gmap string value := dict [("title", VStr "Yes")].
Definition no : gmap string value := dict [("title", VStr "No")].

Definition show_message_request : gmap string value :=
  dict [("type", VInt 3); ("message", VStr "Restart the server?");
        ("actions", VList [VDict yes; VDict no])].

Definition log_message : value :=
  VDict (dict [("type", VInt 4); ("message", VStr "indexing done")]).

End TestSession.

(** *** The fixtures of [test_windows.py] *)

Module TestWindows.

(** [MockConfigs.syntax_configs] *)
Definition syntax_configs (view : MockView) : list ClientConfig :=
  if String.eqb (syntax view) "Plain Text" then [TestSession.test_config] else [].

(** [MockHandlerDispatcher().on_start] *)
Definition on_start (config_name : string) : bool := true.

(** [mock_start_session]: whatever configuration is asked for, a session for
    [test_config] over a fresh [MockClient]. *)
Definition mock_start_session (project_path : option string) (config : ClientConfig)
  : option Session :=
  match project_path with
  | Some path =>
      match create_session TestSession.pid TestSession.filename_to_uri [] []
              TestSession.no_server TestSession.no_transport TestSession.quiet_terminate
              TestSession.test_config path ∅ TestSession.settings
              (Some TestSession.created_callback) (Some TestSession.ended_callback)
              (Some TestSession.mock_client) [] with
      | (Ok session, _) => session
      | (Raise _, _) => None
      end
  | None => None
  end.

(** A window on one folder, without sessions, and two documents in it. *)
Definition wm : Windows.WindowManager :=
  Windows.new_WindowManager ["/project"] Documents.empty.

Definition view_a : MockView :=
  {| _file_name := Some "/project/a.txt"; syntax := "Plain Text" |}.
Definition view_b : MockView :=
  {| _file_name := Some "/project/b.txt"; syntax := "Plain Text" |}.

End TestWindows.

(* ===================================================================== *)
(** ** [test_sublime.py] *)
(* ===================================================================== *)

Module Sublime.

(** [MockSublimeSettings] *)
Record MockSublimeSettings : Type := { _values : gmap string value }.

(** [get(key, default)] *)
Definition get (st : MockSublimeSettings) (key : string) (dflt : value) : value :=
  default dflt (_values st !! key).

(** [set(key, value)] *)
Definition set (key : string) (v : value) (st : MockSublimeSettings) : MockSublimeSettings :=
  {| _values := <[key := v]> (_values st) |}.

(** [MockWindow] *)
Record MockWindow : Type := {
  _files_in_groups : list (list MockView);
  _is_valid : bool;
  _folders : list string;
  _default_view : MockView;
  _project_data : value;
  commands : list (string * value);
}.

(** [MockWindow(files_in_groups)]; [dirname] stands for
    [os.path.dirname(__file__)]. *)
Definition new_MockWindow (files_in_groups : list (list MockView)) (dirname : string)
  : MockWindow :=
  {| _files_in_groups := files_in_groups; _is_valid := true; _folders := [dirname];
     _default_view := {| _file_name := None; syntax := "Plain Text" |};
     _project_data := VNone; commands := [] |}.

(** [num_groups] *)
Definition num_groups (w : MockWindow) : Z := Z.of_nat (length (_files_in_groups w)).

(** [active_view_in_group]: a group past the end gives [None]; a negative one
    is subscripted the Python way. *)
Definition active_view_in_group (w : MockWindow) (group : Z) : exn + option MockView :=
  if group <? Z.of_nat (length (_files_in_groups w)) then
    match py_index (_files_in_groups w) group with
    | inl e => inl e
    | inr files =>
        inr (Some (match files with
                   | view :: _ => view
                   | [] => _default_view w
                   end))
    end
  else inr None.

(** [active_view] *)
Definition active_view (w : MockWindow) : exn + option MockView := active_view_in_group w 0.

(** [add_view_in_group] *)
Definition add_view_in_group (group : Z) (view : MockView) (w : MockWindow)
  : exn + MockWindow :=
  match py_index (_files_in_groups w) group with
  | inl e => inl e
  | inr files =>
      let n := Z.of_nat (length (_files_in_groups w)) in
      let j := Z.to_nat (if group <? 0 then group + n else group) in
      inr {| _files_in_groups := <[j := files ++ [view]]> (_files_in_groups w);
             _is_valid := _is_valid w; _folders := _folders w;
             _default_view := _default_view w; _project_data := _project_data w;
             commands := commands w |}
  end.

(** [views] *)
Definition views (w : MockWindow) : list MockView :=
  flat_map (fun views_in_group =>
              match views_in_group with
              | [] => [_default_view w]
              | _ => views_in_group
              end)
           (_files_in_groups w).

(** [close] and [is_valid] *)
Definition close (w : MockWindow) : MockWindow :=
  {| _files_in_groups := _files_in_groups w; _is_valid := false; _folders := _folders w;
     _default_view := _default_view w; _project_data := _project_data w;
     commands := commands w |}.

Definition is_valid (w : MockWindow) : bool := _is_valid w.

(** The module-level [_callback] slot: [set_timeout_async] fills it whatever
    it held, [_run_timeout] empties it and then calls what it held. The
    result of [_run_timeout] is the callback it calls, if any, and the slot as
    it is when that call begins. *)
Definition set_timeout_async (callback : hostfn) (duration : Z) (_callback : option hostfn)
  : option hostfn :=
  Some callback.

Definition _run_timeout (_callback : option hostfn) : option hostfn * option hostfn :=
  match _callback with
  | Some callback => (Some callback, None)
  | None => (None, None)
  end.

End Sublime.

(* ===================================================================== *)
(** ** More to observe on a trace *)
(* ===================================================================== *)

Definition terminate_calls (tr : list event) : list Process :=
  omap (fun e => match e with Ev_terminate p => Some p | _ => None end) tr.

Definition responses_sent (tr : list event) : list Response :=
  omap (fun e => match e with Ev_send_response r => Some r | _ => None end) tr.

Definition requests_sent (tr : list event) : list Request :=
  omap (fun e => match e with Ev_send_request r _ _ => Some r | _ => None end) tr.

Definition panels_shown (tr : list event) : list (list value) :=
  omap (fun e => match e with Ev_show_quick_panel titles _ => Some titles | _ => None end) tr.

(** The session a constructor call starts from, and the one it returns when
    the client has not answered yet. *)
Definition fresh_session (cfg : ClientConfig) (path : string) (c : Client)
    (on_created on_ended : option hostfn) : Session :=
  {| config := cfg; project_path := path; state := STARTING;
     _on_created := on_created; _on_ended := on_ended;
     capabilities := VDict ∅; client := Some (with_handlers c) |}.

(** *** Further fixtures *)

Module TestBranches.

(** A server reached over TCP only, and a port on which something listens. *)
Definition tcp_only_config : ClientConfig :=
  {| name := "remote"; binary_args := []; tcp_port := Some 9000;
     tcp_host := Some "localhost"; init_options := VNone |}.

Definition listening (port : Z) (host : option string) : option Transport := Some 3%nat.

(** A [MockClient] with an empty table of responses. *)
Definition silent_mock : Client := new_Client (MockClient ∅ None).

(** The titles offered by [TestSession.show_message_request]. *)
Definition titles : list value := [VStr "Yes"; VStr "No"].

(** Requests that offer nothing, or something that is not an action. *)
Definition request_without_actions : gmap string value :=
  dict [("type", VInt 3); ("message", VStr "Restart the server?")].

Definition request_with_bad_action : gmap string value :=
  dict [("message", VStr "Restart the server?");
        ("actions", VList [VDict TestSession.yes; VStr "No"])].

(** A handshake response without capabilities to speak of. *)
Definition null_capabilities : gmap string value := dict [("capabilities", VNone)].

End TestBranches.

(** What a session that the constructor returns looks like. *)
Definition well_made (cfg : ClientConfig) (path : string)
    (on_created on_ended : option hostfn) (s : Session) : Prop :=
  config s = cfg /\ project_path s = path /\
  _on_created s = on_created /\ _on_ended s = on_ended /\
  (state s = STARTING \/ state s = READY) /\
  exists c, client s = Some (with_handlers c).

(* ===================================================================== *)
(** * Part II: the properties *)
(* ===================================================================== *)

(* ===================================================================== *)
(** ** Reasoning principles *)
(* ===================================================================== *)

Lemma last_request_app (tr tr' : list event) :
  last_request (tr ++ tr') =
    match last_request tr' with
    | Some x => Some x
    | None => last_request tr
    end.
Proof.
  induction tr as [|e tr IH]; simpl.
  - by destruct (last_request tr').
  - rewrite IH. by destruct (last_request tr').
Qed.

Lemma on_ended_calls_app (tr tr' : list event) :
  on_ended_calls (tr ++ tr') = on_ended_calls tr ++ on_ended_calls tr'.
Proof. apply omap_app. Qed.

Lemma exit_calls_app (tr tr' : list event) :
  exit_calls (tr ++ tr') = (exit_calls tr + exit_calls tr')%nat.
Proof. unfold exit_calls. by rewrite omap_app, length_app. Qed.

(** The completion handler of the shutdown request, on a session that still
    holds its client. *)
Lemma handle_shutdown_result_spec (s : Session) (c : Client) (tr : list event) :
  client s = Some c ->
  __handle_shutdown_result {| self := s; trace := tr |} =
    (Ok tt, {| self := set_capabilities (VDict ∅) (set_client None s);
               trace := (tr ++ [Ev_exit]) ++ on_ended_events s |}).
Proof.
  intros Hc. destruct s as [cfg pp st oc oe caps cl]. simpl in Hc. subst cl.
  unfold on_ended_events. destruct oe as [f|]; cbn.
  - reflexivity.
  - by rewrite app_nil_r.
Qed.

(** [end()] followed by the completion of the shutdown request, whatever the
    client and whatever the outcome. *)
Lemma shutdown_round_trip_spec (s : Session) (c : Client) (tr : list event) (o : outcome) :
  client s = Some c ->
  shutdown_round_trip o {| self := s; trace := tr |} =
    (Ok tt,
     {| self := after_shutdown s;
        trace := tr ++ request_events c Request_shutdown
                         lambda_result__handle_shutdown_result
                         (Some lambda__handle_shutdown_result)
                    ++ [Ev_exit] ++ on_ended_events s |}).
Proof.
  intros Hc. destruct s as [cfg pp st oc oe caps cl]. simpl in Hc. subst cl.
  unfold shutdown_round_trip, round_trip, end_, client_send_request, answers_at_once,
    request_events.
  destruct c as [i nh rh]. destruct i as [t|p|resp [f|]]; cbn.
  all: unfold complete_last_request, bind, gets; cbn.
  all: repeat (rewrite last_request_app; cbn).
  all: try (destruct o; cbn).
  all: unfold on_ended_events; destruct oe; cbn.
  all: unfold log_event, modify; cbn.
  all: rewrite <- ?app_assoc; reflexivity.
Qed.

(** *** Fields no method assigns *)

Lemma keeps_frame_ret {A} (a : A) : keeps_frame (ret a).
Proof. by intros w. Qed.

Lemma keeps_frame_raise {A} (e : exn) : keeps_frame (@raise World A e).
Proof. by intros w. Qed.

Lemma keeps_frame_gets {A} (f : World -> A) : keeps_frame (gets f).
Proof. by intros w. Qed.

Lemma keeps_frame_lift {A} (r : exn + A) : keeps_frame (@lift World A r).
Proof. by destruct r; intros w. Qed.

Lemma keeps_frame_log_event (e : event) : keeps_frame (log_event e).
Proof. by intros w. Qed.

Lemma keeps_frame_update_self (f : Session -> Session) :
  (forall s, frame (f s) = frame s) -> keeps_frame (update_self f).
Proof. intros Hf w. apply Hf. Qed.

Lemma keeps_frame_bind {A B} (m : M World A) (k : A -> M World B) :
  keeps_frame m -> (forall a, keeps_frame (k a)) -> keeps_frame (bind m k).
Proof.
  intros Hm Hk w. unfold bind. specialize (Hm w).
  destruct (m w) as [[a|e] w'] eqn:E; simpl in Hm.
  - by rewrite Hk.
  - done.
Qed.

Ltac frame_step :=
  first [ apply keeps_frame_bind; [|intros ?]
        | apply keeps_frame_update_self; intros ?; reflexivity
        | apply keeps_frame_ret | apply keeps_frame_raise | apply keeps_frame_gets
        | apply keeps_frame_lift | apply keeps_frame_log_event
        | match goal with |- keeps_frame (match ?x with _ => _ end) => destruct x end
        | match goal with |- keeps_frame (if ?x then _ else _) => destruct x end ].

Lemma keeps_frame_the_client : keeps_frame the_client.
Proof. unfold the_client. repeat frame_step. Qed.

Lemma keeps_frame_client_send_response r : keeps_frame (client_send_response r).
Proof. unfold client_send_response. pose proof keeps_frame_the_client. repeat frame_step; done. Qed.

Lemma keeps_frame_handle_shutdown_result : keeps_frame __handle_shutdown_result.
Proof.
  unfold __handle_shutdown_result, client_exit.
  pose proof keeps_frame_the_client. repeat frame_step; done.
Qed.

Lemma keeps_frame_call (f : callable) (args : list value) : keeps_frame (call f args).
Proof.
  pose proof keeps_frame_handle_shutdown_result.
  pose proof keeps_frame_client_send_response.
  unfold call, __handle_log_message, __handle_show_message, __handle_show_message_request,
    __handle_initialize_result, send_user_choice.
  repeat frame_step; done.
Qed.

Lemma keeps_frame_client_send_request r on_success on_error :
  keeps_frame (client_send_request r on_success on_error).
Proof.
  pose proof keeps_frame_the_client. pose proof keeps_frame_call.
  unfold client_send_request. repeat frame_step; done.
Qed.

Lemma keeps_frame_end_ : keeps_frame end_.
Proof.
  pose proof keeps_frame_client_send_request.
  unfold end_. repeat frame_step; done.
Qed.

Lemma keeps_frame_round_trip m o : keeps_frame m -> keeps_frame (round_trip m o).
Proof.
  intros Hm. pose proof keeps_frame_the_client. pose proof keeps_frame_call.
  unfold round_trip, complete_last_request, deliver. repeat frame_step; done.
Qed.

(* ===================================================================== *)
(** ** The tests of [test_session.py] *)
(* ===================================================================== *)

(** [setUp] makes the session the tests expect, and calls [on_created] with it. *)
Example setUp_session :
  TestSession.setUp.1 = Ok (Some TestSession.session) /\
  on_created_calls TestSession.setUp.2 = [(TestSession.created_callback, TestSession.session)].
Proof. vm_compute. split; reflexivity. Qed.

(** The assertions of [setUp]. *)
Example setUp_asserts :
  state TestSession.session = READY /\
  is_Some (client TestSession.session) /\
  project_path TestSession.session = "/" /\
  has_capability TestSession.session "testing" = inr true.
Proof. vm_compute. repeat split; eauto. Qed.

(** [test_can_shutdown_session] *)
Example test_can_shutdown_session :
  let w := (end_ {| self := TestSession.session; trace := [] |}).2 in
  state (self w) = STOPPING /\
  project_path (self w) = "/" /\
  client (self w) = None /\
  has_capability (self w) "testing" = inr false /\
  get_capability (self w) "testing" = inr VNone /\
  on_ended_calls (trace w) = [(TestSession.ended_callback, "test")].
Proof. vm_compute. repeat split. Qed.

(** [test_has_active_handlers_for_simple_messages] *)
Example test_has_active_handlers_for_simple_messages :
  match client TestSession.session with
  | Some c =>
      is_Some (_notification_handlers c !! "window/logMessage") /\
      is_Some (_notification_handlers c !! "window/showMessage") /\
      is_Some (_request_handlers c !! "window/showMessageRequest")
  | None => False
  end.
Proof. vm_compute. repeat split; eauto. Qed.

(** The stdio fixtures are what the code makes of a spawned server: the
    session is [STARTING] until the response is delivered, [READY] after. *)
Example stdio_fixtures :
  (create_session TestSession.pid TestSession.filename_to_uri [] []
     TestSession.spawning_server TestSession.no_transport TestSession.quiet_terminate
     TestSession.stdio_config "/" ∅ TestSession.settings
     (Some TestSession.created_callback) (Some TestSession.ended_callback) None []).1
    = Ok (Some TestSession.starting_session) /\
  (deliver bound__handle_initialize_result None
     (success (VDict TestSession.initialize_response))
     {| self := TestSession.starting_session; trace := [] |}).1 = Ok tt /\
  self (deliver bound__handle_initialize_result None
          (success (VDict TestSession.initialize_response))
          {| self := TestSession.starting_session; trace := [] |}).2
    = TestSession.stdio_session.
Proof. vm_compute. repeat split. Qed.

(** The error callback of [end] takes no argument: called with one, it
    raises before the completion handler runs, and the session keeps its
    client. *)
Example error_callback_takes_no_argument :
  call lambda__handle_shutdown_result [VStr "error"]
    {| self := TestSession.stdio_session; trace := [] |}
  = (Raise TypeError, {| self := TestSession.stdio_session; trace := [] |}).
Proof. reflexivity. Qed.

(* ===================================================================== *)
(** ** Shutdown *)
(* ===================================================================== *)




(** C3: on every session that holds a client, [end()] followed by the
    completion of the shutdown request, with a result or with an error,
    closes the transport once and drops the client, empties the capabilities,
    and calls the [on_ended] callback the session was given exactly once,
    with the configuration name (a session created without one has no
    callback to call). *)
Theorem end_releases_client_and_notifies (s : Session) (c : Client) (tr : list event)
    (o : outcome) :
  client s = Some c ->
  exists s' evs,
    shutdown_round_trip o {| self := s; trace := tr |}
      = (Ok tt, {| self := s'; trace := tr ++ evs |}) /\
    exit_calls evs = 1%nat /\
    client s' = None /\
    capabilities s' = VDict ∅ /\
    on_ended_calls evs =
      match _on_ended s with
      | Some f => [(f, name (config s))]
      | None => []
      end.
Proof.
  intros Hc. eexists _, _. split; [by apply shutdown_round_trip_spec|].
  unfold request_events, on_ended_events.
  destruct (impl c) as [?|?|? [?|]], (_on_ended s); repeat split.
Qed.

Lemma end_releases_client_and_notifies_witness :
  exists s' evs,
    shutdown_round_trip failure {| self := TestSession.stdio_session; trace := [] |}
      = (Ok tt, {| self := s'; trace := [] ++ evs |}) /\
    exit_calls evs = 1%nat /\
    client s' = None /\
    capabilities s' = VDict ∅ /\
    on_ended_calls evs = [(TestSession.ended_callback, "test")].
Proof.
  apply (end_releases_client_and_notifies TestSession.stdio_session
           TestSession.stdio_client [] failure); reflexivity.
Defined.

(** C10: [end()] and the completion handler of the shutdown request assign
    only [state], [client] and [capabilities]: [config] and [project_path]
    (and the two stored callbacks) are the same after the round trip, however
    it went. *)
Theorem shutdown_keeps_config_and_project_path (w : World) (o : outcome) :
  let w' := (shutdown_round_trip o w).2 in
  config (self w') = config (self w) /\
  project_path (self w') = project_path (self w) /\
  _on_created (self w') = _on_created (self w) /\
  _on_ended (self w') = _on_ended (self w).
Proof.
  pose proof (keeps_frame_round_trip end_ o keeps_frame_end_ w) as H.
  unfold frame in H. cbv zeta. unfold shutdown_round_trip.
  by injection H as -> -> -> ->.
Qed.

(* ===================================================================== *)
(** ** Creating a session *)
(* ===================================================================== *)

Section CreateSession.

Variable os_getpid : Z.
Variable filename_to_uri : string -> string.
Variable completion_item_kinds : list Z.
Variable symbol_kinds : list Z.
Variable start_server : list string -> string -> gmap string string -> bool -> option Process.
Variable start_tcp_transport : Z -> option string -> option Transport.
Variable terminate : Process -> option exn.

Local Abbreviation create :=
  (create_session os_getpid filename_to_uri completion_item_kinds symbol_kinds
     start_server start_tcp_transport terminate).

(** C4: a configuration without launch arguments and without a TCP port,
    given no bootstrap client, yields no session; nothing is spawned or
    connected to, and the attempt is only reported to the debug log. *)
Theorem create_session_no_way_to_start (config : ClientConfig) (project_path : string)
    (env : gmap string string) (settings : Settings) (on_created on_ended : option hostfn)
    (tr : list event) :
  binary_args config = [] ->
  port_given (tcp_port config) = None ->
  create config project_path env settings on_created on_ended None tr
    = (Ok None, tr ++ [Ev_debug [VStr "No way to start session"]]).
Proof.
  intros Hargs Hport. unfold create_session.
  by rewrite Hargs, Hport.
Qed.

(** C8: when the server process was spawned but the connection to its TCP
    port could not be established, no session is returned and the process is
    asked to terminate; whether or not [terminate] raises, nothing propagates
    to the caller. *)
Theorem create_session_tcp_failure_terminates (config : ClientConfig) (project_path : string)
    (env : gmap string string) (settings : Settings) (on_created on_ended : option hostfn)
    (bootstrap_client : option Client) (process : Process) (port : Z) (tr : list event) :
  binary_args config <> [] ->
  start_server (binary_args config) project_path env (log_stderr settings) = Some process ->
  port_given (tcp_port config) = Some port ->
  start_tcp_transport port (tcp_host config) = None ->
  create config project_path env settings on_created on_ended bootstrap_client tr
    = (Ok None,
       tr ++ [Ev_start_server (binary_args config) project_path env (log_stderr settings);
              Ev_start_tcp_transport port (tcp_host config);
              Ev_terminate process]).
Proof.
  intros Hargs Hproc Hport Htcp. unfold create_session.
  destruct (binary_args config) as [|a args] eqn:Ea; [done|].
  unfold bind, say, modify, try_except. cbn.
  rewrite Hproc, Hport. cbn. rewrite Htcp. cbn.
  destruct (terminate process); cbn; by rewrite <- !app_assoc.
Qed.

End CreateSession.

Lemma create_session_no_way_to_start_witness :
  create_session TestSession.pid TestSession.filename_to_uri [] []
    TestSession.no_server TestSession.no_transport TestSession.quiet_terminate
    TestSession.test_config "/" ∅ TestSession.settings None None None []
  = (Ok None, [] ++ [Ev_debug [VStr "No way to start session"]]).
Proof.
  apply (create_session_no_way_to_start TestSession.pid TestSession.filename_to_uri [] []
           TestSession.no_server TestSession.no_transport TestSession.quiet_terminate
           TestSession.test_config "/" ∅ TestSession.settings None None []);
    reflexivity.
Defined.

Lemma create_session_tcp_failure_terminates_witness :
  create_session TestSession.pid TestSession.filename_to_uri [] []
    TestSession.spawning_server TestSession.no_transport TestSession.failing_terminate
    TestSession.tcp_config "/" ∅ TestSession.settings None None None []
  = (Ok None,
     [] ++ [Ev_start_server ["server"; "--port"; "9000"] "/" ∅ false;
            Ev_start_tcp_transport 9000 (Some "localhost");
            Ev_terminate 7%nat]).
Proof.
  apply (create_session_tcp_failure_terminates
           TestSession.pid TestSession.filename_to_uri [] []
           TestSession.spawning_server TestSession.no_transport TestSession.failing_terminate
           TestSession.tcp_config "/" ∅ TestSession.settings None None None 7%nat 9000 []);
    [discriminate | reflexivity | reflexivity | reflexivity].
Defined.

(* ===================================================================== *)
(** ** Capabilities *)
(* ===================================================================== *)

Lemma is_not_False_spec (v : value) : is_not_False v = true <-> v <> VBool false.
Proof.
  destruct v as [|[|]| | | |]; simpl; split; try done; try discriminate.
Qed.

(** C5: on a session whose stored capabilities are a mapping,
    [has_capability] answers, and answers [True] exactly for the names that
    are keys of the mapping with a value other than [False]; a capability
    stored as [False] is reported like a missing one. *)
Theorem has_capability_iff (s : Session) (d : gmap string value) (capability : string) :
  capabilities s = VDict d ->
  exists b,
    has_capability s capability = inr b /\
    (b = true <-> exists v, d !! capability = Some v /\ v <> VBool false) /\
    (d !! capability = Some (VBool false) -> b = false) /\
    (d !! capability = None -> b = false).
Proof.
  intros Hd. unfold has_capability. rewrite Hd. simpl.
  destruct (d !! capability) as [v|] eqn:Hv.
  - rewrite bool_decide_eq_true_2 by eauto.
    exists (is_not_False v). split; [done|]. split; [|split].
    + rewrite is_not_False_spec. split.
      * intros Hne. by exists v.
      * by intros (v' & [= <-] & Hne).
    + by intros [= ->].
    + done.
  - rewrite bool_decide_eq_false_2 by (by intros [? ?]).
    exists false. split; [done|]. split; [|done].
    split; [done|]. by intros (v' & ? & _).
Qed.

Lemma has_capability_iff_witness :
  exists b,
    has_capability TestSession.session "testing" = inr b /\
    (b = true <->
     exists v, TestSession.server_capabilities !! "testing" = Some v /\ v <> VBool false) /\
    (TestSession.server_capabilities !! "testing" = Some (VBool false) -> b = false) /\
    (TestSession.server_capabilities !! "testing" = None -> b = false).
Proof.
  apply (has_capability_iff TestSession.session TestSession.server_capabilities "testing").
  reflexivity.
Defined.

(* ===================================================================== *)
(** ** The handshake *)
(* ===================================================================== *)

(** The success callback of the initialize request, run on a response that
    is a JSON object. *)
Lemma handle_initialize_result_spec (s : Session) (tr : list event) (r : gmap string value) :
  let s' := set_capabilities (default (VDict ∅) (r !! "capabilities")) (set_state READY s) in
  __handle_initialize_result (VDict r) {| self := s; trace := tr |} =
    (Ok tt, {| self := s'; trace := tr ++ on_created_events s' |}).
Proof.
  destruct s as [cfg pp st oc oe caps cl]. unfold on_created_events.
  destruct oc as [f|]; cbn; [done|]. by rewrite app_nil_r.
Qed.

Section Handshake.

Variable os_getpid : Z.
Variable filename_to_uri : string -> string.
Variable completion_item_kinds : list Z.
Variable symbol_kinds : list Z.

Local Abbreviation initialize :=
  (__initialize os_getpid filename_to_uri completion_item_kinds symbol_kinds).
Local Abbreviation initialize_params :=
  (get_initialize_params os_getpid filename_to_uri completion_item_kinds symbol_kinds).

(** C6: when the initialize request of a session completes with a success
    response [r], the session is [READY] and holds the capabilities of [r]
    (none if [r] names none); the [on_created] callback the session was given
    is called once, and what it is handed is the session in that final
    condition. *)
Theorem initialize_success_makes_ready (s : Session) (c : Client) (tr : list event)
    (o : outcome) (r : gmap string value) :
  client s = Some c ->
  delivered c (Request_initialize (initialize_params (project_path s) (config s))) o
    = success (VDict r) ->
  exists s' evs,
    round_trip initialize o {| self := s; trace := tr |}
      = (Ok tt, {| self := s'; trace := tr ++ evs |}) /\
    state s' = READY /\
    capabilities s' = default (VDict ∅) (r !! "capabilities") /\
    on_created_calls evs =
      match _on_created s with
      | Some f => [(f, s')]
      | None => []
      end.
Proof.
  intros Hc Hdel.
  exists (set_capabilities (default (VDict ∅) (r !! "capabilities")) (set_state READY s)).
  unfold __initialize, round_trip, client_send_request, answers_at_once.
  generalize dependent (get_initialize_params os_getpid filename_to_uri
                          completion_item_kinds symbol_kinds (project_path s) (config s)).
  intros params Hdel. unfold delivered in Hdel.
  destruct s as [cfg pp st oc oe caps cl]. simpl in Hc. subst cl.
  destruct c as [i nh rh]. simpl in Hdel.
  destruct i as [t|p|resp [f|]]; cbn.
  all: unfold complete_last_request, bind, gets; cbn.
  all: repeat (rewrite last_request_app; cbn).
  all: try (rewrite Hdel; cbn).
  all: try (injection Hdel as ->; cbn).
  all: unfold log_event, update_self, modify; cbn.
  all: destruct oc as [g|]; cbn.
  all: unfold log_event, modify; cbn.
  all: rewrite <- ?app_assoc; eexists; (split; [reflexivity|]); repeat split.
Qed.

End Handshake.

Lemma initialize_success_makes_ready_witness :
  exists s' evs,
    round_trip (__initialize TestSession.pid TestSession.filename_to_uri [] [])
      (success (VDict TestSession.initialize_response))
      {| self := TestSession.starting_session; trace := [] |}
      = (Ok tt, {| self := s'; trace := [] ++ evs |}) /\
    state s' = READY /\
    capabilities s' = default (VDict ∅) (TestSession.initialize_response !! "capabilities") /\
    on_created_calls evs = [(TestSession.created_callback, s')].
Proof.
  apply (initialize_success_makes_ready TestSession.pid TestSession.filename_to_uri [] []
           TestSession.starting_session TestSession.stdio_client []
           (success (VDict TestSession.initialize_response))
           TestSession.initialize_response);
    reflexivity.
Defined.

(* ===================================================================== *)
(** ** Requests and notifications from the server *)
(* ===================================================================== *)

Lemma titles_of_actions (actions : list value) :
  forallb is_dict actions = true ->
  mapM (fun action => py_get action "title" VNone) actions = inr (title_of <$> actions).
Proof.
  induction actions as [|a actions IH]; simpl; [done|].
  intros [Ha Hrest]%andb_prop. rewrite (IH Hrest).
  by destruct a.
Qed.

Lemma py_index_lookup {A} (l : list A) (i : Z) (x : A) :
  0 <= i -> l !! Z.to_nat i = Some x -> py_index l i = inr x.
Proof.
  intros Hi Hx. unfold py_index.
  pose proof (lookup_lt_Some _ _ _ Hx) as Hlt.
  destruct (Z.ltb_spec i 0) as [?|_]; [lia|].
  destruct (Z.leb_spec 0 i) as [_|?]; [|lia].
  destruct (Z.ltb_spec i (Z.of_nat (length l))) as [_|?]; [|lia].
  simpl. by rewrite Hx.
Qed.



Lemma setup_handlers_spec (s : Session) (c : Client) (tr : list event) :
  client s = Some c ->
  __setup_special_notification_and_request_handlers {| self := s; trace := tr |} =
    (Ok tt, {| self := set_client (Some (with_handlers c)) s; trace := tr ++ setup_events |}).
Proof.
  intros Hc. destruct s as [cfg pp st oc oe caps cl]. simpl in Hc. subst cl.
  unfold __setup_special_notification_and_request_handlers, client_on_notification,
    client_on_request, the_client, bind, gets, update_self, log_event, modify, ret,
    with_handlers, setup_events, set_client.
  simpl. by rewrite <- !app_assoc.
Qed.

Lemma with_handlers_lookup (c : Client) :
  _notification_handlers (with_handlers c) !! "window/logMessage"
    = Some bound__handle_log_message /\
  _notification_handlers (with_handlers c) !! "window/showMessage"
    = Some bound__handle_show_message /\
  _request_handlers (with_handlers c) !! "window/showMessageRequest"
    = Some bound__handle_show_message_request.
Proof.
  unfold with_handlers; simpl. repeat split.
  - rewrite lookup_insert_ne by done. apply lookup_insert_eq.
  - apply lookup_insert_eq.
  - apply lookup_insert_eq.
Qed.

(** [extract_message] answers for every payload the protocol allows: no
    params at all, or a JSON object. *)
Lemma extract_message_dict (r : gmap string value) :
  extract_message (VDict r) = inr (default (VStr "???") (r !! "message")).
Proof.
  unfold extract_message. simpl. case_bool_decide as Hr; simpl; [|done].
  by rewrite Hr, lookup_empty.
Qed.

Lemma extract_message_None : extract_message VNone = inr (VStr "???").
Proof. reflexivity. Qed.

Lemma handle_log_message_spec (response msg : value) (w : World) :
  extract_message response = inr msg ->
  __handle_log_message response w =
    (Ok tt, {| self := self w;
               trace := trace w ++ [Ev_server_log (name (config (self w))) msg] |}).
Proof. intros H. unfold __handle_log_message, bind, gets. by rewrite H. Qed.

Lemma handle_show_message_spec (response msg : value) (w : World) :
  extract_message response = inr msg ->
  __handle_show_message response w =
    (Ok tt, {| self := self w; trace := trace w ++ [Ev_message_dialog msg] |}).
Proof. intros H. unfold __handle_show_message, bind. by rewrite H. Qed.

(** Whatever the response, the success callback of the initialize request
    only appends to the trace and leaves the client in place. *)
Lemma handle_initialize_result_client (v : value) (s : Session) (tr : list event) :
  exists r s' evs,
    __handle_initialize_result v {| self := s; trace := tr |}
      = (r, {| self := s'; trace := tr ++ evs |}) /\
    client s' = client s.
Proof.
  destruct s as [cfg pp st oc oe caps cl].
  destruct v as [| | | | |d]; cbn.
  1-5: by eexists _, _, []; rewrite app_nil_r.
  destruct oc as [f|]; cbn.
  - by eexists _, _, [_].
  - by eexists _, _, []; rewrite app_nil_r.
Qed.

Section Construction.

Variable os_getpid : Z.
Variable filename_to_uri : string -> string.
Variable completion_item_kinds : list Z.
Variable symbol_kinds : list Z.

Local Abbreviation init :=
  (__init__ os_getpid filename_to_uri completion_item_kinds symbol_kinds).
Local Abbreviation initialize_params :=
  (get_initialize_params os_getpid filename_to_uri completion_item_kinds symbol_kinds).

(** C9: constructing a session registers the handlers for
    [window/logMessage], [window/showMessage] and [window/showMessageRequest]
    on its client before the initialize request goes out; they are in place
    on every session the constructor returns, in particular on one still
    [STARTING] because its client has not answered. The first forwards the
    message to [server_log] under the configuration's name, the second to
    [sublime.message_dialog]. *)
Theorem handlers_installed_at_construction (cfg : ClientConfig) (path : string)
    (c : Client) (on_created on_ended : option hostfn) (tr : list event)
    (response msg : value) :
  extract_message response = inr msg ->
  exists r rest,
    init cfg path c on_created on_ended tr =
      (r, tr ++ setup_events
             ++ [Ev_send_request (Request_initialize (initialize_params path cfg))
                   bound__handle_initialize_result None]
             ++ rest) /\
    (forall s, r = Ok s -> client s = Some (with_handlers c)) /\
    (answers_at_once c = false ->
     exists s, r = Ok s /\ state s = STARTING /\ on_created_calls rest = []) /\
    _notification_handlers (with_handlers c) !! "window/logMessage"
      = Some bound__handle_log_message /\
    _notification_handlers (with_handlers c) !! "window/showMessage"
      = Some bound__handle_show_message /\
    _request_handlers (with_handlers c) !! "window/showMessageRequest"
      = Some bound__handle_show_message_request /\
    (forall w,
       call bound__handle_log_message [response] w =
         (Ok tt, {| self := self w;
                    trace := trace w ++ [Ev_server_log (name (config (self w))) msg] |})) /\
    (forall w,
       call bound__handle_show_message [response] w =
         (Ok tt, {| self := self w; trace := trace w ++ [Ev_message_dialog msg] |})).
Proof.
  intros Hmsg.
  unfold __init__.
  unfold bind at 1. rewrite (setup_handlers_spec _ c) by done.
  unfold __initialize, client_send_request, the_client, bind, gets, log_event, modify. cbn.
  generalize (get_initialize_params os_getpid filename_to_uri completion_item_kinds
                symbol_kinds path cfg).
  intros params.
  destruct (with_handlers_lookup c) as (Hlog & Hshow & Hreq).
  assert (Hfwd :
    (forall w, call bound__handle_log_message [response] w =
       (Ok tt, {| self := self w;
                  trace := trace w ++ [Ev_server_log (name (config (self w))) msg] |})) /\
    (forall w, call bound__handle_show_message [response] w =
       (Ok tt, {| self := self w; trace := trace w ++ [Ev_message_dialog msg] |}))).
  { split; intros w; cbn [call].
    - by apply handle_log_message_spec.
    - by apply handle_show_message_spec. }
  unfold answers_at_once.
  destruct (impl c) as [t|p|resp [f|]] eqn:Hi.
  - exists (Ok (set_client (Some (with_handlers c))
        {| config := cfg; project_path := path; state := STARTING;
           _on_created := on_created; _on_ended := on_ended;
           capabilities := VDict ∅; client := Some c |})), [].
    cbn. rewrite <- !app_assoc. split; [done|]. split; [by intros s [= <-]|].
    split; [eauto|]. by destruct Hfwd.
  - exists (Ok (set_client (Some (with_handlers c))
        {| config := cfg; project_path := path; state := STARTING;
           _on_created := on_created; _on_ended := on_ended;
           capabilities := VDict ∅; client := Some c |})), [].
    cbn. rewrite <- !app_assoc. split; [done|]. split; [by intros s [= <-]|].
    split; [eauto|]. by destruct Hfwd.
  - eexists (Ok (set_client (Some (with_handlers c))
        {| config := cfg; project_path := path; state := STARTING;
           _on_created := on_created; _on_ended := on_ended;
           capabilities := VDict ∅; client := Some c |})), [_; _].
    cbn. rewrite <- !app_assoc. split; [done|]. split; [by intros s [= <-]|].
    split; [eauto|]. by destruct Hfwd.
  - match goal with
    | |- context [__handle_initialize_result ?v ?w] =>
        destruct (handle_initialize_result_client v (self w) (trace w))
          as (r & s' & evs & Hrun & Hcl)
    end.
    cbn in Hrun, Hcl. cbn. rewrite Hrun.
    destruct r as [[]|e].
    + exists (Ok s'), (Ev_debug [VStr "TEST: responding to"; VStr "initialize"; VStr "with";
                                 default VNone (resp !! "initialize")] :: evs).
      cbn. rewrite <- !app_assoc. split; [done|]. split; [by intros s [= <-]|].
      split; [done|]. by destruct Hfwd.
    + exists (Raise e), (Ev_debug [VStr "TEST: responding to"; VStr "initialize"; VStr "with";
                                   default VNone (resp !! "initialize")] :: evs).
      cbn. rewrite <- !app_assoc. split; [done|]. split; [done|].
      split; [done|]. by destruct Hfwd.
Qed.

End Construction.

Lemma handlers_installed_at_construction_witness :
  exists r rest,
    __init__ TestSession.pid TestSession.filename_to_uri [] []
      TestSession.stdio_config "/" (new_Client (stdio_Client 7%nat))
      (Some TestSession.created_callback) (Some TestSession.ended_callback) [] =
      (r, [] ++ setup_events
             ++ [Ev_send_request
                   (Request_initialize
                      (get_initialize_params TestSession.pid TestSession.filename_to_uri
                         [] [] "/" TestSession.stdio_config))
                   bound__handle_initialize_result None]
             ++ rest) /\
    (forall s, r = Ok s -> client s = Some TestSession.stdio_client) /\
    (answers_at_once (new_Client (stdio_Client 7%nat)) = false ->
     exists s, r = Ok s /\ state s = STARTING /\ on_created_calls rest = []) /\
    _notification_handlers TestSession.stdio_client !! "window/logMessage"
      = Some bound__handle_log_message /\
    _notification_handlers TestSession.stdio_client !! "window/showMessage"
      = Some bound__handle_show_message /\
    _request_handlers TestSession.stdio_client !! "window/showMessageRequest"
      = Some bound__handle_show_message_request /\
    (forall w,
       call bound__handle_log_message [TestSession.log_message] w =
         (Ok tt, {| self := self w;
                    trace := trace w ++ [Ev_server_log (name (config (self w)))
                                           (VStr "indexing done")] |})) /\
    (forall w,
       call bound__handle_show_message [TestSession.log_message] w =
         (Ok tt, {| self := self w;
                    trace := trace w ++ [Ev_message_dialog (VStr "indexing done")] |})).
Proof.
  apply (handlers_installed_at_construction TestSession.pid TestSession.filename_to_uri [] []
           TestSession.stdio_config "/" (new_Client (stdio_Client 7%nat))
           (Some TestSession.created_callback) (Some TestSession.ended_callback) []
           TestSession.log_message (VStr "indexing done")).
  vm_compute. reflexivity.
Defined.

(* ===================================================================== *)
(** ** The window's table of sessions *)
(* ===================================================================== *)

Section TableFacts.

Import Windows.

Variable syntax_configs : MockView -> list ClientConfig.
Variable on_start : string -> bool.
Variable start_session : option string -> ClientConfig -> option Session.

Local Abbreviation _start_client := (Windows._start_client on_start start_session).
Local Abbreviation activate_view := (Windows.activate_view syntax_configs on_start start_session).

Lemma consistent_new (window_folders : list string) (docs : Documents.MockDocuments) :
  consistent (new_WindowManager window_folders docs).
Proof. intros nm. unfold connections_for, new_WindowManager; simpl. by rewrite lookup_empty. Qed.

Lemma connections_for_snoc (nm nm' : string) (s : Session) (l : list (string * Session)) :
  omap (fun p : string * Session => if decide (p.1 = nm) then Some p.2 else None)
       (l ++ [(nm', s)])
  = omap (fun p : string * Session => if decide (p.1 = nm) then Some p.2 else None) l
      ++ (if decide (nm' = nm) then [s] else []).
Proof. rewrite omap_app. simpl. by destruct (decide (nm' = nm)). Qed.

(** Starting a configuration either leaves the table as it is or enters one
    new Connection under a name that had none. *)
Lemma start_client_cases (wm : WindowManager) (cfg : ClientConfig) :
  _start_client wm cfg = wm \/
  exists session,
    _sessions wm !! name cfg = None /\
    _sessions (_start_client wm cfg) = <[name cfg := session]> (_sessions wm) /\
    live (_start_client wm cfg) = live wm ++ [(name cfg, session)].
Proof.
  unfold Windows._start_client.
  destruct (_sessions wm !! name cfg) eqn:Hlook; [by left|].
  destruct (on_start (name cfg)); [|by left].
  destruct (start_session (_project_path wm) cfg) as [session|]; [|by left].
  right. by exists session.
Qed.

Lemma start_client_consistent (wm : WindowManager) (cfg : ClientConfig) :
  consistent wm -> consistent (_start_client wm cfg).
Proof.
  intros Hwm. destruct (start_client_cases wm cfg) as [->|(session & Hnone & Htab & Hlive)];
    [done|].
  intros nm. unfold connections_for. rewrite Htab, Hlive, connections_for_snoc.
  specialize (Hwm nm). unfold connections_for in Hwm. rewrite Hwm.
  destruct (decide (name cfg = nm)) as [<-|Hne].
  - by rewrite Hnone, lookup_insert_eq.
  - by rewrite lookup_insert_ne, app_nil_r.
Qed.

Lemma start_client_keeps (wm : WindowManager) (cfg : ClientConfig) (nm : string)
    (s : Session) :
  _sessions wm !! nm = Some s -> _sessions (_start_client wm cfg) !! nm = Some s.
Proof.
  intros Hs. destruct (start_client_cases wm cfg) as [->|(session & Hnone & Htab & _)];
    [done|].
  rewrite Htab, lookup_insert_ne; [done|]. intros <-. congruence.
Qed.

Lemma start_client_fixed (wm : WindowManager) (cfg : ClientConfig) :
  folders (_start_client wm cfg) = folders wm /\
  _project_path (_start_client wm cfg) = _project_path wm /\
  Documents._documents (_documents (_start_client wm cfg))
    = Documents._documents (_documents wm).
Proof.
  unfold Windows._start_client.
  destruct (_sessions wm !! name cfg); [done|].
  destruct (on_start (name cfg)); [|done].
  destruct (start_session (_project_path wm) cfg) as [session|]; [|done].
  simpl. by destruct (bool_decide (state session = READY)).
Qed.

Lemma start_client_enters (wm : WindowManager) (cfg : ClientConfig) :
  on_start (name cfg) = true ->
  is_Some (start_session (_project_path wm) cfg) ->
  is_Some (_sessions (_start_client wm cfg) !! name cfg).
Proof.
  intros Hgate [session Hstart]. unfold Windows._start_client.
  destruct (_sessions wm !! name cfg) eqn:Hlook; [by rewrite Hlook|].
  rewrite Hgate, Hstart. simpl. rewrite lookup_insert_eq. eauto.
Qed.

(** The same facts for a whole list of configurations. *)
Lemma start_clients_consistent (cfgs : list ClientConfig) (wm : WindowManager) :
  consistent wm -> consistent (foldl _start_client wm cfgs).
Proof.
  revert wm. induction cfgs as [|cfg cfgs IH]; intros wm Hwm; simpl; [done|].
  apply IH. by apply start_client_consistent.
Qed.

Lemma start_clients_keeps (cfgs : list ClientConfig) (wm : WindowManager) (nm : string)
    (s : Session) :
  _sessions wm !! nm = Some s -> _sessions (foldl _start_client wm cfgs) !! nm = Some s.
Proof.
  revert wm. induction cfgs as [|cfg cfgs IH]; intros wm Hs; simpl; [done|].
  apply IH. by apply start_client_keeps.
Qed.

Lemma start_clients_fixed (cfgs : list ClientConfig) (wm : WindowManager) :
  folders (foldl _start_client wm cfgs) = folders wm /\
  _project_path (foldl _start_client wm cfgs) = _project_path wm /\
  Documents._documents (_documents (foldl _start_client wm cfgs))
    = Documents._documents (_documents wm).
Proof.
  revert wm. induction cfgs as [|cfg cfgs IH]; intros wm; simpl; [done|].
  destruct (IH (_start_client wm cfg)) as (-> & -> & ->).
  apply start_client_fixed.
Qed.

Lemma start_clients_enters (cfgs : list ClientConfig) (wm : WindowManager)
    (cfg : ClientConfig) :
  cfg ∈ cfgs ->
  on_start (name cfg) = true ->
  is_Some (start_session (_project_path wm) cfg) ->
  is_Some (_sessions (foldl _start_client wm cfgs) !! name cfg).
Proof.
  intros Hin Hgate. revert wm.
  induction Hin as [cfg cfgs|cfg cfg' cfgs Hin IH]; intros wm Hstart; cbn [foldl].
  - destruct (start_client_enters wm cfg Hgate Hstart) as [s Hs].
    exists s. by apply start_clients_keeps.
  - apply IH; [done|].
    destruct (start_client_fixed wm cfg') as (_ & Hpath & _). by rewrite Hpath.
Qed.

(** Activating a document while the project path is what it was. *)
Lemma activate_view_same_path (view : MockView) (wm : WindowManager) :
  head (folders wm) = _project_path wm ->
  let wm' := foldl _start_client wm (syntax_configs view) in
  _sessions (activate_view view wm) = _sessions wm' /\
  live (activate_view view wm) = live wm' /\
  folders (activate_view view wm) = folders wm /\
  _project_path (activate_view view wm) = _project_path wm /\
  Documents._documents (_documents (activate_view view wm))
    = Documents._documents (Documents.handle_view_opened view (_documents wm)).
Proof.
  intros Hpath. unfold Windows.activate_view. rewrite bool_decide_eq_true_2 by done. simpl.
  destruct (start_clients_fixed (syntax_configs view) wm) as (Hf & Hp & Hd).
  repeat split; try done.
  unfold Documents.handle_view_opened.
  destruct (_file_name view) as [f|]; [|done].
  destruct (String.eqb f ""); [done|]. simpl. by rewrite Hd.
Qed.

Lemma handle_view_opened_registers (view : MockView) (d : Documents.MockDocuments)
    (file_name : string) :
  _file_name view = Some file_name -> file_name <> "" ->
  file_name ∈ Documents._documents (Documents.handle_view_opened view d).
Proof.
  intros Hf Hne. unfold Documents.handle_view_opened. rewrite Hf.
  destruct (String.eqb_spec file_name ""); [done|]. simpl.
  apply elem_of_app. right. by apply list_elem_of_singleton.
Qed.

Lemma handle_view_opened_keeps (view : MockView) (d : Documents.MockDocuments)
    (file_name : string) :
  file_name ∈ Documents._documents d ->
  file_name ∈ Documents._documents (Documents.handle_view_opened view d).
Proof.
  intros Hin. unfold Documents.handle_view_opened.
  destruct (_file_name view) as [f|]; [|done].
  destruct (String.eqb f ""); [done|]. simpl. apply elem_of_app. by left.
Qed.

(** No activation, with or without a change of the project path, breaks the
    agreement of table and Connections. *)
Lemma activate_view_consistent (view : MockView) (wm : WindowManager) :
  consistent wm -> consistent (activate_view view wm).
Proof.
  intros Hwm nm. unfold Windows.activate_view, connections_for.
  case_bool_decide; simpl.
  - apply (start_clients_consistent (syntax_configs view) wm Hwm nm).
  - by rewrite lookup_empty.
Qed.


End TableFacts.


(* ===================================================================== *)
(** ** The constructor and [create_session], branch by branch *)
(* ===================================================================== *)

Lemma terminate_calls_app (tr tr' : list event) :
  terminate_calls (tr ++ tr') = terminate_calls tr ++ terminate_calls tr'.
Proof. apply omap_app. Qed.

Lemma terminate_calls_request_events c r on_success on_error :
  terminate_calls (request_events c r on_success on_error) = [].
Proof. unfold request_events. by destruct (impl c) as [?|?|? [?|]]. Qed.

Section Constructor.

Variable os_getpid : Z.
Variable filename_to_uri : string -> string.
Variable completion_item_kinds : list Z.
Variable symbol_kinds : list Z.

Local Abbreviation init :=
  (__init__ os_getpid filename_to_uri completion_item_kinds symbol_kinds).
Local Abbreviation initialize_params :=
  (get_initialize_params os_getpid filename_to_uri completion_item_kinds symbol_kinds).

(** A client that does not answer at once: the constructor returns the
    session as it set it up. *)
Lemma init_deferred (cfg : ClientConfig) (path : string) (c : Client)
    (on_created on_ended : option hostfn) (tr : list event) :
  answers_at_once c = false ->
  init cfg path c on_created on_ended tr =
    (Ok (fresh_session cfg path c on_created on_ended),
     tr ++ setup_events
        ++ request_events c (Request_initialize (initialize_params path cfg))
             bound__handle_initialize_result None).
Proof.
  intros Hc. unfold __init__.
  unfold bind at 1. rewrite (setup_handlers_spec _ c) by done.
  unfold __initialize, client_send_request, the_client, bind, gets, log_event, modify. cbn.
  generalize (get_initialize_params os_getpid filename_to_uri completion_item_kinds
                symbol_kinds path cfg).
  intros params. unfold answers_at_once in Hc. unfold request_events, fresh_session.
  destruct (impl c) as [t|p|resp [f|]]; try done; cbn; by rewrite <- !app_assoc.
Qed.

(** A [MockClient] that answers at once with a JSON object: the constructor
    returns the session after the handshake. *)
Lemma init_mock_dict (cfg : ClientConfig) (path : string) (c : Client)
    (on_created on_ended : option hostfn) (tr : list event)
    (resp r : gmap string value) :
  impl c = MockClient resp None ->
  resp !! "initialize" = Some (VDict r) ->
  let s' := set_capabilities (default (VDict ∅) (r !! "capabilities"))
              (set_state READY (fresh_session cfg path c on_created on_ended)) in
  init cfg path c on_created on_ended tr =
    (Ok s',
     tr ++ setup_events
        ++ request_events c (Request_initialize (initialize_params path cfg))
             bound__handle_initialize_result None
        ++ on_created_events s').
Proof.
  intros Hc Hresp s'. unfold __init__.
  unfold bind at 1. rewrite (setup_handlers_spec _ c) by done.
  unfold __initialize, client_send_request, the_client, bind, gets, log_event, modify. cbn.
  generalize (get_initialize_params os_getpid filename_to_uri completion_item_kinds
                symbol_kinds path cfg).
  intros params. unfold request_events. rewrite Hc. cbn. rewrite Hresp.
  subst s'. unfold on_created_events, fresh_session.
  destruct on_created as [f|]; cbn; unfold log_event, modify; cbn;
    by rewrite <- !app_assoc.
Qed.

(** A [MockClient] that answers at once with anything else: the constructor
    raises, after the state has been set to [READY]. *)
Lemma init_mock_bad (cfg : ClientConfig) (path : string) (c : Client)
    (on_created on_ended : option hostfn) (tr : list event) (resp : gmap string value) :
  impl c = MockClient resp None ->
  is_dict (default VNone (resp !! "initialize")) = false ->
  init cfg path c on_created on_ended tr =
    (Raise AttributeError,
     tr ++ setup_events
        ++ request_events c (Request_initialize (initialize_params path cfg))
             bound__handle_initialize_result None).
Proof.
  intros Hc Hbad. unfold __init__.
  unfold bind at 1. rewrite (setup_handlers_spec _ c) by done.
  unfold __initialize, client_send_request, the_client, bind, gets, log_event, modify. cbn.
  generalize (get_initialize_params os_getpid filename_to_uri completion_item_kinds
                symbol_kinds path cfg).
  intros params. unfold request_events. rewrite Hc. cbn.
  destruct (default VNone (resp !! "initialize")); try done; cbn; by rewrite <- !app_assoc.
Qed.

End Constructor.

Section Branches.

Variable os_getpid : Z.
Variable filename_to_uri : string -> string.
Variable completion_item_kinds : list Z.
Variable symbol_kinds : list Z.
Variable start_server : list string -> string -> gmap string string -> bool -> option Process.
Variable start_tcp_transport : Z -> option string -> option Transport.
Variable terminate : Process -> option exn.

Local Abbreviation init :=
  (__init__ os_getpid filename_to_uri completion_item_kinds symbol_kinds).
Local Abbreviation initialize_params :=
  (get_initialize_params os_getpid filename_to_uri completion_item_kinds symbol_kinds).
Local Abbreviation create :=
  (create_session os_getpid filename_to_uri completion_item_kinds symbol_kinds
     start_server start_tcp_transport terminate).

Lemma init_result (cfg : ClientConfig) (path : string) (c : Client)
    (on_created on_ended : option hostfn) (tr tr' : list event) (s : Session) :
  init cfg path c on_created on_ended tr = (Ok s, tr') ->
  well_made cfg path on_created on_ended s /\
  exists evs, tr' = tr ++ evs /\ terminate_calls evs = [].
Proof.
  intros Hrun. destruct (answers_at_once c) eqn:Hc.
  - unfold answers_at_once in Hc.
    destruct (impl c) as [?|?|resp [?|]] eqn:Hi; try done.
    destruct (default VNone (resp !! "initialize")) as [| | | | |r] eqn:Hv.
    1-5: by rewrite (init_mock_bad _ _ _ _ cfg path c on_created on_ended tr resp Hi)
              in Hrun by (by rewrite Hv).
    assert (Hresp : resp !! "initialize" = Some (VDict r)).
    { destruct (resp !! "initialize"); simpl in Hv; congruence. }
    rewrite (init_mock_dict _ _ _ _ cfg path c on_created on_ended tr resp r Hi Hresp)
      in Hrun.
    injection Hrun as <- <-. split.
    + repeat split; eauto.
    + eexists. split; [reflexivity|].
      rewrite Hi. unfold on_created_events; simpl. by destruct on_created.
  - rewrite init_deferred in Hrun by done. injection Hrun as <- <-. split.
    + repeat split; eauto.
    + eexists. split; [reflexivity|].
      unfold answers_at_once in Hc. unfold request_events.
      by destruct (impl c) as [?|?|? [?|]].
Qed.

(** From here on the constructor is used through the three lemmas above. *)
Opaque __init__.

(** X1: when the server cannot be spawned, [create_session] gives up at
    once: it returns no session and tries neither the TCP port nor the
    bootstrap client, whatever the configuration and the caller offer. *)
Theorem create_session_spawn_failure (cfg : ClientConfig) (path : string)
    (env : gmap string string) (settings : Settings) (on_created on_ended : option hostfn)
    (bootstrap_client : option Client) (tr : list event) :
  binary_args cfg <> [] ->
  start_server (binary_args cfg) path env (log_stderr settings) = None ->
  create cfg path env settings on_created on_ended bootstrap_client tr
    = (Ok None, tr ++ [Ev_start_server (binary_args cfg) path env (log_stderr settings)]).
Proof.
  intros Hargs Hproc. unfold create_session.
  destruct (binary_args cfg) as [|a args] eqn:Ea; [done|].
  unfold bind, say, modify. cbn. by rewrite Hproc.
Qed.

(** X2: without launch arguments but with a TCP port, a session is made
    over whatever [start_tcp_transport] returned, a transport or nothing: the
    result of the connection attempt is not looked at, the configured host is
    not passed on, and the bootstrap client is not used. The session is
    [STARTING] and its initialize request is out. *)
Theorem create_session_tcp_only (cfg : ClientConfig) (path : string)
    (env : gmap string string) (settings : Settings) (on_created on_ended : option hostfn)
    (bootstrap_client : option Client) (port : Z) (tr : list event) :
  binary_args cfg = [] ->
  port_given (tcp_port cfg) = Some port ->
  create cfg path env settings on_created on_ended bootstrap_client tr
    = (Ok (Some (fresh_session cfg path
                   (new_Client (rpc_Client (start_tcp_transport port None)))
                   on_created on_ended)),
       tr ++ [Ev_start_tcp_transport port None]
          ++ setup_events
          ++ [Ev_send_request (Request_initialize (initialize_params path cfg))
                bound__handle_initialize_result None]).
Proof.
  intros Hargs Hport. unfold create_session. rewrite Hargs, Hport.
  unfold bind, say, modify. cbn [fst snd].
  rewrite init_deferred by done. cbn. by rewrite <- !app_assoc.
Qed.

(** X3: the bootstrap client is a last resort: with launch arguments or a
    TCP port in the configuration, the outcome of [create_session] does not
    depend on it. *)
Theorem create_session_bootstrap_ignored (cfg : ClientConfig) (path : string)
    (env : gmap string string) (settings : Settings) (on_created on_ended : option hostfn)
    (b1 b2 : option Client) (tr : list event) :
  binary_args cfg <> [] \/ port_given (tcp_port cfg) <> None ->
  create cfg path env settings on_created on_ended b1 tr
    = create cfg path env settings on_created on_ended b2 tr.
Proof.
  intros Hgiven. unfold create_session.
  destruct (binary_args cfg) as [|a args]; [|done].
  destruct (port_given (tcp_port cfg)); [done|].
  by destruct Hgiven.
Qed.

(** X4: whichever way it was made, a session that [create_session] returns
    carries the configuration, project path and callbacks it was called
    with, is [STARTING] or [READY], and holds a client with the three
    handlers registered; [create_session] only added to the trace, and it did
    not terminate any process. *)
Theorem create_session_returns_well_made (cfg : ClientConfig) (path : string)
    (env : gmap string string) (settings : Settings) (on_created on_ended : option hostfn)
    (bootstrap_client : option Client) (tr tr' : list event) (s : Session) :
  create cfg path env settings on_created on_ended bootstrap_client tr = (Ok (Some s), tr') ->
  well_made cfg path on_created on_ended s /\
  exists evs, tr' = tr ++ evs /\ terminate_calls evs = [].
Proof.
  unfold create_session, bind, say, modify, try_except, ret.
  destruct (binary_args cfg) as [|a args].
  - destruct (port_given (tcp_port cfg)) as [port|].
    + destruct (__init__ _ _ _ _ _ _ _ _ _ _) as [[s0|e] tr0] eqn:E; [|done].
      intros [= <- <-]. apply init_result in E as (Hs & evs & -> & Hevs).
      split; [done|]. exists (Ev_start_tcp_transport port None :: evs).
      split; [by rewrite <- app_assoc|done].
    + destruct bootstrap_client as [c|]; [|done].
      destruct (__init__ _ _ _ _ _ _ _ _ _ _) as [[s0|e] tr0] eqn:E; [|done].
      intros [= <- <-]. by apply init_result in E.
  - cbn. destruct (start_server _ _ _ _) as [process|]; [|done].
    destruct (port_given (tcp_port cfg)) as [port|]; cbn.
    + destruct (start_tcp_transport port (tcp_host cfg)) as [transport|].
      * destruct (__init__ _ _ _ _ _ _ _ _ _ _) as [[s0|e] tr0] eqn:E; [|done].
        intros [= <- <-]. apply init_result in E as (Hs & evs & -> & Hevs).
        split; [done|]. eexists (_ :: _ :: evs).
        split; [by rewrite <- !app_assoc|done].
      * by destruct (terminate process).
    + destruct (__init__ _ _ _ _ _ _ _ _ _ _) as [[s0|e] tr0] eqn:E; [|done].
      intros [= <- <-]. apply init_result in E as (Hs & evs & -> & Hevs).
      split; [done|]. eexists (_ :: _ :: evs).
      split; [by rewrite <- !app_assoc|done].
Qed.

(** X5: launch arguments, a server that starts and no TCP port: the session
    runs over the standard streams of the process, attached after the spawn
    and before any handler is registered; it is [STARTING] with its
    initialize request out, and reports no capability yet. *)
Theorem create_session_stdio (cfg : ClientConfig) (path : string)
    (env : gmap string string) (settings : Settings) (on_created on_ended : option hostfn)
    (bootstrap_client : option Client) (process : Process) (tr : list event) :
  binary_args cfg <> [] ->
  start_server (binary_args cfg) path env (log_stderr settings) = Some process ->
  port_given (tcp_port cfg) = None ->
  let s := fresh_session cfg path (new_Client (stdio_Client process)) on_created on_ended in
  create cfg path env settings on_created on_ended bootstrap_client tr
    = (Ok (Some s),
       tr ++ [Ev_start_server (binary_args cfg) path env (log_stderr settings);
              Ev_attach_stdio_client process]
          ++ setup_events
          ++ [Ev_send_request (Request_initialize (initialize_params path cfg))
                bound__handle_initialize_result None]) /\
  forall capability,
    has_capability s capability = inr false /\ get_capability s capability = inr VNone.
Proof.
  intros Hargs Hproc Hport s. split.
  - unfold create_session.
    destruct (binary_args cfg) as [|a args] eqn:Ea; [done|].
    unfold bind, say, modify. cbn. rewrite Hproc, Hport. cbn.
    rewrite init_deferred by done. cbn. by rewrite <- !app_assoc.
  - intros capability. unfold has_capability, get_capability. simpl.
    by rewrite lookup_empty.
Qed.

(** X6: launch arguments, a server that starts and a TCP port that
    connects: the session runs over that transport, reached at the configured
    host, and the process is left running. *)
Theorem create_session_tcp_success (cfg : ClientConfig) (path : string)
    (env : gmap string string) (settings : Settings) (on_created on_ended : option hostfn)
    (bootstrap_client : option Client) (process : Process) (port : Z)
    (transport : Transport) (tr : list event) :
  binary_args cfg <> [] ->
  start_server (binary_args cfg) path env (log_stderr settings) = Some process ->
  port_given (tcp_port cfg) = Some port ->
  start_tcp_transport port (tcp_host cfg) = Some transport ->
  exists evs,
    create cfg path env settings on_created on_ended bootstrap_client tr
      = (Ok (Some (fresh_session cfg path (new_Client (rpc_Client (Some transport)))
                     on_created on_ended)),
         tr ++ evs) /\
    evs = [Ev_start_server (binary_args cfg) path env (log_stderr settings);
           Ev_start_tcp_transport port (tcp_host cfg)]
          ++ setup_events
          ++ [Ev_send_request (Request_initialize (initialize_params path cfg))
                bound__handle_initialize_result None] /\
    terminate_calls evs = [].
Proof.
  intros Hargs Hproc Hport Htcp. eexists. split; [|split; [reflexivity|done]].
  unfold create_session.
  destruct (binary_args cfg) as [|a args] eqn:Ea; [done|].
  unfold bind, say, modify. cbn. rewrite Hproc, Hport. cbn. rewrite Htcp.
  rewrite init_deferred by done. cbn. by rewrite <- !app_assoc.
Qed.

(** X7: over a bootstrap [MockClient] whose table holds a JSON object for
    [initialize], [create_session] returns with the handshake done: the
    session is [READY], holds the capabilities of that object, and
    [on_created], if given, has been called once, with that session. *)
Theorem create_session_mock_handshake (cfg : ClientConfig) (path : string)
    (env : gmap string string) (settings : Settings) (on_created on_ended : option hostfn)
    (c : Client) (resp r : gmap string value) (tr : list event) :
  binary_args cfg = [] ->
  port_given (tcp_port cfg) = None ->
  impl c = MockClient resp None ->
  resp !! "initialize" = Some (VDict r) ->
  exists s evs,
    create cfg path env settings on_created on_ended (Some c) tr
      = (Ok (Some s), tr ++ evs) /\
    state s = READY /\
    capabilities s = default (VDict ∅) (r !! "capabilities") /\
    client s = Some (with_handlers c) /\
    on_created_calls evs = match on_created with Some f => [(f, s)] | None => [] end.
Proof.
  intros Hargs Hport Hc Hresp. unfold create_session. rewrite Hargs, Hport.
  unfold bind. rewrite (init_mock_dict _ _ _ _ cfg path c on_created on_ended tr resp r Hc Hresp).
  eexists _, _. split; [reflexivity|]. repeat split.
  unfold request_events, on_created_events. rewrite Hc. simpl.
  by destruct on_created.
Qed.

(** X8: over a bootstrap [MockClient] whose table has no JSON object for
    [initialize], the success callback is handed something without [get]:
    [create_session] raises [AttributeError] instead of returning, and
    [on_created] is never called. *)
Theorem create_session_mock_without_response (cfg : ClientConfig) (path : string)
    (env : gmap string string) (settings : Settings) (on_created on_ended : option hostfn)
    (c : Client) (resp : gmap string value) (tr : list event) :
  binary_args cfg = [] ->
  port_given (tcp_port cfg) = None ->
  impl c = MockClient resp None ->
  is_dict (default VNone (resp !! "initialize")) = false ->
  exists evs,
    create cfg path env settings on_created on_ended (Some c) tr
      = (Raise AttributeError, tr ++ evs) /\
    on_created_calls evs = [].
Proof.
  intros Hargs Hport Hc Hbad. unfold create_session. rewrite Hargs, Hport.
  unfold bind. rewrite (init_mock_bad _ _ _ _ cfg path c on_created on_ended tr resp Hc Hbad).
  eexists. split; [reflexivity|].
  unfold request_events. by rewrite Hc.
Qed.

Transparent __init__.

End Branches.

(* ===================================================================== *)
(** ** The session after its shutdown, and out-of-order completions *)
(* ===================================================================== *)

(** X9: once the shutdown round trip is over, the session reports no
    capability at all: for every name [has_capability] is [False] and
    [get_capability] is [None]. *)
Theorem shutdown_clears_every_capability (s : Session) (c : Client) (tr : list event)
    (o : outcome) (capability : string) :
  client s = Some c ->
  let w' := (shutdown_round_trip o {| self := s; trace := tr |}).2 in
  has_capability (self w') capability = inr false /\
  get_capability (self w') capability = inr VNone.
Proof.
  intros Hc. cbv zeta. rewrite (shutdown_round_trip_spec s c tr o Hc).
  unfold has_capability, get_capability. simpl. by rewrite lookup_empty.
Qed.

(** X10: [end()] on a session whose shutdown has completed raises
    [AttributeError], because the client is gone; no second shutdown request
    is sent and the session is left as it was. *)
Theorem end_after_shutdown_raises (s : Session) (c : Client) (tr : list event) (o : outcome) :
  client s = Some c ->
  let w' := (shutdown_round_trip o {| self := s; trace := tr |}).2 in
  end_ w' = (Raise AttributeError, w').
Proof.
  intros Hc. cbv zeta. by rewrite (shutdown_round_trip_spec s c tr o Hc).
Qed.

(** X11: a second completion of the shutdown request, with a result or with
    an error, raises [AttributeError] before anything else happens: the
    transport is not closed again and [on_ended] is not called again. *)
Theorem second_shutdown_completion_raises (s : Session) (c : Client) (tr : list event)
    (o o' : outcome) :
  client s = Some c ->
  let w' := (shutdown_round_trip o {| self := s; trace := tr |}).2 in
  complete_last_request o' w' = (Raise AttributeError, w').
Proof.
  intros Hc. cbv zeta. rewrite (shutdown_round_trip_spec s c tr o Hc). cbn [snd].
  unfold complete_last_request, bind, gets. cbn [trace fst snd].
  rewrite !last_request_app.
  unfold request_events, on_ended_events.
  destruct (impl c) as [t|p|resp [f|]], (_on_ended s); cbn; by destruct o'.
Qed.

(** X12: [end()] always leaves the state [STOPPING]: with or without a
    client, whether the request is answered at once or later, and also when
    it raises. *)
Theorem end_sets_STOPPING (w : World) : state (self (end_ w).2) = STOPPING.
Proof.
  destruct w as [[cfg pp st oc oe caps [[i nh rh]|]] tr]; [|reflexivity].
  destruct i as [t|p|resp [f|]]; try reflexivity.
  by destruct oe.
Qed.

(** X13: a success callback of the initialize request that is handed
    something other than a JSON object raises [AttributeError] after it has
    set the state: the session is [READY] with the capabilities it had, and
    [on_created] is not called. *)
Theorem initialize_result_not_a_dict (s : Session) (tr : list event) (result : value) :
  is_dict result = false ->
  call bound__handle_initialize_result [result] {| self := s; trace := tr |}
    = (Raise AttributeError, {| self := set_state READY s; trace := tr |}).
Proof. by destruct result. Qed.

(** X14: a handshake response that arrives after [end()] but before the
    shutdown completes puts the session back to [READY], and the completion
    of the shutdown does not undo that: the session ends without client and
    without capabilities, in state [READY]. *)
Theorem late_handshake_leaves_READY (s : Session) (c : Client) (tr : list event)
    (r : gmap string value) (o : outcome) :
  client s = Some c ->
  answers_at_once c = false ->
  exists w',
    (end_;;;
     call bound__handle_initialize_result [VDict r];;;
     complete_last_request o) {| self := s; trace := tr |} = (Ok tt, w') /\
    state (self w') = READY /\
    client (self w') = None /\
    capabilities (self w') = VDict ∅.
Proof.
  intros Hc Hlater. destruct s as [cfg pp st oc oe caps cl]. simpl in Hc. subst cl.
  destruct c as [i nh rh]. unfold answers_at_once in Hlater. simpl in Hlater.
  unfold end_, client_send_request, complete_last_request, bind, gets.
  destruct i as [t|p|resp [f|]]; try done; cbn.
  all: destruct oc as [g|]; cbn.
  all: repeat (rewrite last_request_app; cbn).
  all: destruct o; cbn.
  all: destruct oe as [h|]; cbn; eexists; (split; [reflexivity|]); done.
Qed.

(* ===================================================================== *)
(** ** The edges of the message handlers *)
(* ===================================================================== *)

Lemma py_index_out_of_range {A} (l : list A) (i : Z) :
  Z.of_nat (length l) <= i \/ i < - Z.of_nat (length l) ->
  py_index l i = inl IndexError.
Proof.
  intros Hout. unfold py_index.
  destruct (Z.ltb_spec i 0).
  - destruct (Z.leb_spec 0 (i + Z.of_nat (length l))); [lia|done].
  - destruct (Z.leb_spec 0 i); [|lia].
    destruct (Z.ltb_spec i (Z.of_nat (length l))); [lia|done].
Qed.

Lemma py_index_negative {A} (l : list A) (i : Z) :
  - Z.of_nat (length l) <= i < 0 ->
  exists x, l !! Z.to_nat (i + Z.of_nat (length l)) = Some x /\ py_index l i = inr x.
Proof.
  intros Hi. unfold py_index.
  destruct (Z.ltb_spec i 0); [|lia].
  destruct (Z.leb_spec 0 (i + Z.of_nat (length l))); [|lia].
  destruct (Z.ltb_spec (i + Z.of_nat (length l)) (Z.of_nat (length l))); [|lia].
  simpl.
  destruct (lookup_lt_is_Some_2 l (Z.to_nat (i + Z.of_nat (length l)))) as [x Hx]; [lia|].
  exists x. by rewrite Hx.
Qed.

Lemma titles_of_bad_actions (actions : list value) :
  forallb is_dict actions = false ->
  mapM (fun action => py_get action "title" VNone) actions = inl AttributeError.
Proof.
  induction actions as [|a actions IH]; simpl; [done|].
  destruct a as [| | | | |d]; simpl; try done.
  intros Hrest. by rewrite (IH Hrest).
Qed.

(** X15: a [window/showMessageRequest] that offers nothing to choose from,
    because [actions] is missing, empty or otherwise falsy, is dropped: no
    panel is shown, nothing is sent, and the request stays unanswered. *)
Theorem show_message_request_without_actions (r : gmap string value) (request_id : value)
    (w : World) :
  truthy (default (VList []) (r !! "actions")) = false ->
  call bound__handle_show_message_request [VDict r; request_id] w = (Ok tt, w).
Proof.
  intros Hfalsy. cbn. unfold __handle_show_message_request, bind, lift. cbn.
  by rewrite Hfalsy.
Qed.

(** X16: if one of the offered actions is not a JSON object, collecting the
    titles raises [AttributeError]: no panel is shown and nothing is sent. *)
Theorem show_message_request_malformed_action (r : gmap string value) (request_id : value)
    (actions : list value) (w : World) :
  r !! "actions" = Some (VList actions) ->
  forallb is_dict actions = false ->
  call bound__handle_show_message_request [VDict r; request_id] w
    = (Raise AttributeError, w).
Proof.
  intros Hact Hbad. cbn. unfold __handle_show_message_request, bind, lift. cbn.
  rewrite Hact. cbn.
  destruct actions as [|a actions']; [done|].
  cbn [truthy negb]. by rewrite (titles_of_bad_actions _ Hbad).
Qed.

(** X17: an index other than [-1] that lies outside the list of titles, past
    its end or before its beginning, makes the choice callback raise
    [IndexError]; no response is sent. *)
Theorem send_user_choice_out_of_range (request_id : value) (titles : list value) (i : Z)
    (w : World) :
  i <> -1 ->
  Z.of_nat (length titles) <= i \/ i < - Z.of_nat (length titles) ->
  call (send_user_choice_closure request_id titles) [VInt i] w = (Raise IndexError, w).
Proof.
  intros Hi Hout. cbn. unfold send_user_choice.
  destruct (Z.eqb_spec i (-1)); [done|].
  unfold bind, lift. by rewrite (py_index_out_of_range titles i Hout).
Qed.


(** X19: the choice callback needs the client: when the user chooses after
    the session has shut down, it raises [AttributeError] and nothing is
    sent; dismissing the panel is still harmless. *)
Theorem send_user_choice_after_shutdown (s : Session) (tr : list event)
    (request_id : value) (titles : list value) (i : Z) (title : value) :
  client s = None ->
  0 <= i ->
  titles !! Z.to_nat i = Some title ->
  call (send_user_choice_closure request_id titles) [VInt i] {| self := s; trace := tr |}
    = (Raise AttributeError, {| self := s; trace := tr |}) /\
  call (send_user_choice_closure request_id titles) [VInt (-1)] {| self := s; trace := tr |}
    = (Ok tt, {| self := s; trace := tr |}).
Proof.
  intros Hc Hi Hlook. split; [|reflexivity].
  cbn. unfold send_user_choice.
  destruct (Z.eqb_spec i (-1)); [lia|].
  unfold bind, lift. rewrite (py_index_lookup titles i title Hi Hlook). cbn.
  unfold client_send_response, the_client, bind, gets. cbn. by rewrite Hc.
Qed.

(** X20: [extract_message] on every kind of payload: a falsy one (no params,
    an empty object) gives ["???"], a JSON object gives its [message] or
    ["???"] when it has none, and any other truthy value raises
    [AttributeError]. *)
Theorem extract_message_cases (response : value) :
  (truthy response = false -> extract_message response = inr (VStr "???")) /\
  (forall r, response = VDict r ->
     extract_message response = inr (default (VStr "???") (r !! "message"))) /\
  (truthy response = true -> is_dict response = false ->
     extract_message response = inl AttributeError).
Proof.
  split; [|split].
  - intros Hf. unfold extract_message. by rewrite Hf.
  - intros r ->. apply extract_message_dict.
  - intros Ht Hd. unfold extract_message. rewrite Ht. by destruct response.
Qed.

(** X21: whatever one of the session's callables is called with, and whether
    or not the call raises, it leaves [config], [project_path] and the two
    stored callbacks of the session alone. *)
Theorem callables_keep_frame (f : callable) (args : list value) (w : World) :
  let w' := (call f args w).2 in
  config (self w') = config (self w) /\
  project_path (self w') = project_path (self w) /\
  _on_created (self w') = _on_created (self w) /\
  _on_ended (self w') = _on_ended (self w).
Proof.
  pose proof (keeps_frame_call f args w) as H. unfold frame in H. cbv zeta.
  by injection H as -> -> -> ->.
Qed.

(** X22: the handlers of the two notifications never touch the session or
    the client: whatever the payload, the session object is the same
    afterwards and nothing was sent. *)
Theorem notification_handlers_read_only (response : value) (w : World) :
  let w1 := (call bound__handle_log_message [response] w).2 in
  let w2 := (call bound__handle_show_message [response] w).2 in
  self w1 = self w /\ self w2 = self w /\
  (exists evs, trace w1 = trace w ++ evs /\ responses_sent evs = [] /\ requests_sent evs = []) /\
  (exists evs, trace w2 = trace w ++ evs /\ responses_sent evs = [] /\ requests_sent evs = []).
Proof.
  cbv zeta. cbn [call].
  unfold __handle_log_message, __handle_show_message, bind, gets, lift.
  destruct (extract_message response) as [e|msg]; cbn.
  - repeat split; exists []; by rewrite app_nil_r.
  - repeat split; eexists [_]; done.
Qed.

(* ===================================================================== *)
(** ** Handshake parameters and capabilities *)
(* ===================================================================== *)

Section InitializeParams.

Variable os_getpid : Z.
Variable filename_to_uri : string -> string.
Variable completion_item_kinds : list Z.
Variable symbol_kinds : list Z.

Local Abbreviation initialize_params :=
  (get_initialize_params os_getpid filename_to_uri completion_item_kinds symbol_kinds).

(** X23: the initialize parameters are a JSON object that names the process,
    the project path and its URI; [initializationOptions] is present exactly
    when the configuration's [init_options] are truthy (so empty options are
    left out), and the advertised client capabilities are the same for every
    project and configuration. *)
Theorem initialize_params_contents (path : string) (cfg : ClientConfig) :
  exists d,
    initialize_params path cfg = VDict d /\
    d !! "processId" = Some (VInt os_getpid) /\
    d !! "rootUri" = Some (VStr (filename_to_uri path)) /\
    d !! "rootPath" = Some (VStr path) /\
    d !! "initializationOptions"
      = (if truthy (init_options cfg) then Some (init_options cfg) else None) /\
    forall path' cfg',
      py_get (initialize_params path' cfg') "capabilities" VNone
        = inr (default VNone (d !! "capabilities")).
Proof.
  unfold get_initialize_params.
  set (caps := VDict (dict [("textDocument", _); ("workspace", _)])).
  destruct (truthy (init_options cfg)) eqn:Ht; eexists; (split; [reflexivity|]).
  all: cbn [dict foldl fst snd].
  all: repeat split.
  all: try (intros path' cfg'; destruct (truthy (init_options cfg')); cbn [py_get dict foldl fst snd]).
  all: rewrite ?lookup_insert_ne by done; rewrite ?lookup_insert_eq; try done.
  all: by rewrite lookup_empty.
Qed.

End InitializeParams.

(** X24: how the two capability queries relate on a capabilities mapping:
    [get_capability] returns the stored descriptor or [None]; when
    [has_capability] is [True] that descriptor is not [False], and when it is
    [False] the descriptor is missing or is [False] itself. A capability
    stored as [None] therefore counts as present. *)
Theorem has_and_get_capability (s : Session) (d : gmap string value) (capability : string) :
  capabilities s = VDict d ->
  exists b,
    has_capability s capability = inr b /\
    get_capability s capability = inr (default VNone (d !! capability)) /\
    (b = true -> is_Some (d !! capability) /\ d !! capability <> Some (VBool false)) /\
    (b = false -> d !! capability = None \/ d !! capability = Some (VBool false)) /\
    (d !! capability = Some VNone -> b = true).
Proof.
  intros Hd. unfold has_capability, get_capability. rewrite Hd. simpl.
  destruct (d !! capability) as [v|] eqn:Hv.
  - rewrite bool_decide_eq_true_2 by eauto.
    exists (is_not_False v). split; [done|]. split; [done|]. split; [|split].
    + intros Hb. split; [eauto|]. intros [= ->]. done.
    + intros Hb. right. by destruct v as [|[|]| | | |].
    + by intros [= ->].
  - rewrite bool_decide_eq_false_2 by (by intros [? ?]).
    exists false. split; [done|]. split; [done|]. split; [done|]. split; [by left|done].
Qed.

(** X25: a handshake response whose [capabilities] entry is [null] is
    stored as it is: the session becomes [READY], [on_created] is called,
    and from then on [has_capability] raises [TypeError] and
    [get_capability] raises [AttributeError] for every name. *)
Theorem null_capabilities_break_queries (s : Session) (tr : list event)
    (r : gmap string value) (capability : string) :
  r !! "capabilities" = Some VNone ->
  exists w',
    call bound__handle_initialize_result [VDict r] {| self := s; trace := tr |} = (Ok tt, w') /\
    state (self w') = READY /\
    on_created_calls (trace w') = on_created_calls tr ++
      match _on_created s with Some f => [(f, self w')] | None => [] end /\
    has_capability (self w') capability = inl TypeError /\
    get_capability (self w') capability = inl AttributeError.
Proof.
  intros Hr. cbn [call]. rewrite handle_initialize_result_spec. rewrite Hr. cbn [default].
  eexists. split; [reflexivity|]. cbn [self trace]. split; [done|]. split; [|done].
  unfold on_created_calls, on_created_events. rewrite omap_app. simpl.
  by destruct (_on_created s).
Qed.

(* ===================================================================== *)
(** ** The mocks of [test_sublime.py] and [test_windows.py] *)
(* ===================================================================== *)

Lemma group_view_in_views (dv : MockView) (groups : list (list MockView)) (j : nat)
    (files : list MockView) :
  groups !! j = Some files ->
  match files with view :: _ => view | [] => dv end
    ∈ flat_map (fun g : list MockView => match g with [] => [dv] | _ => g end) groups.
Proof.
  intros Hj. apply list_elem_of_In, in_flat_map. exists files. split.
  - apply list_elem_of_In. by eapply list_elem_of_lookup_2.
  - destruct files; by left.
Qed.

(** X26: [active_view_in_group] over the whole range of group numbers. A
    group of the window, counted from the front or, negative, from the back,
    has an active view, its first view or the window's default view when it
    is empty, and that view is among [views()]. A number at or past the end
    gives [None]; one before the beginning raises [IndexError]. *)
Theorem active_view_in_group_cases (w : Sublime.MockWindow) (group : Z) :
  let n := Sublime.num_groups w in
  (- n <= group < n ->
   exists view,
     Sublime.active_view_in_group w group = inr (Some view) /\ view ∈ Sublime.views w) /\
  (n <= group -> Sublime.active_view_in_group w group = inr None) /\
  (group < - n -> Sublime.active_view_in_group w group = inl IndexError).
Proof.
  cbv zeta. unfold Sublime.num_groups, Sublime.active_view_in_group, Sublime.views.
  set (groups := Sublime._files_in_groups w). split; [|split].
  - intros Hin. destruct (Z.ltb_spec group (Z.of_nat (length groups))); [|lia].
    destruct (Z_lt_le_dec group 0) as [Hneg|Hpos].
    + destruct (py_index_negative groups group) as (files & Hlook & ->); [lia|].
      eexists. split; [reflexivity|]. by eapply group_view_in_views.
    + destruct (lookup_lt_is_Some_2 groups (Z.to_nat group)) as [files Hlook]; [lia|].
      rewrite (py_index_lookup groups group files Hpos Hlook).
      eexists. split; [reflexivity|]. by eapply group_view_in_views.
  - intros Hge. by destruct (Z.ltb_spec group (Z.of_nat (length groups))); [lia|].
  - intros Hlt. destruct (Z.ltb_spec group (Z.of_nat (length groups))); [|lia].
    rewrite py_index_out_of_range; [done|lia].
Qed.

(** X27: [views()] shows every group: it has at least as many entries as the
    window has groups (an empty group shows the default view), and it is
    empty only for a window without groups. *)
Theorem views_cover_every_group (w : Sublime.MockWindow) :
  (Sublime.num_groups w <= Z.of_nat (length (Sublime.views w))) /\
  (Sublime.views w = [] <-> Sublime._files_in_groups w = []).
Proof.
  unfold Sublime.num_groups, Sublime.views.
  generalize (Sublime._default_view w). intros dv.
  induction (Sublime._files_in_groups w) as [|g groups [IHlen IHnil]]; simpl.
  - split; [lia|done].
  - split.
    + rewrite length_app. destruct g; simpl; lia.
    + split; [|done]. by destruct g.
Qed.

(** X28: [add_view_in_group] on a group of the window puts the view at the
    end of that group, so it is among [views()] afterwards and the number of
    groups is unchanged; on a number outside the window it raises
    [IndexError]. *)
Theorem add_view_in_group_cases (w : Sublime.MockWindow) (group : Z) (view : MockView) :
  let n := Sublime.num_groups w in
  (- n <= group < n ->
   exists w',
     Sublime.add_view_in_group group view w = inr w' /\
     view ∈ Sublime.views w' /\
     Sublime.num_groups w' = n) /\
  (n <= group \/ group < - n -> Sublime.add_view_in_group group view w = inl IndexError).
Proof.
  cbv zeta. unfold Sublime.num_groups, Sublime.add_view_in_group, Sublime.views.
  set (groups := Sublime._files_in_groups w). split.
  - intros Hin.
    assert (exists files,
      py_index groups group = inr files /\
      groups !! Z.to_nat (if group <? 0 then group + Z.of_nat (length groups) else group)
        = Some files) as (files & -> & Hlook).
    { destruct (Z.ltb_spec group 0) as [Hneg|Hpos].
      - destruct (py_index_negative groups group) as (files & Hlook & Hidx); [lia|].
        by exists files.
      - destruct (lookup_lt_is_Some_2 groups (Z.to_nat group)) as [files Hlook]; [lia|].
        exists files. by rewrite (py_index_lookup groups group files Hpos Hlook). }
    eexists. split; [reflexivity|]. simpl. split.
    + apply list_elem_of_In, in_flat_map. exists (files ++ [view]). split.
      * apply list_elem_of_In. eapply list_elem_of_lookup_2.
        apply list_lookup_insert_eq. by eapply lookup_lt_Some.
      * destruct files; simpl; [by left|]. right. apply in_or_app. right. by left.
    + by rewrite length_insert.
  - intros Hout. by rewrite py_index_out_of_range.
Qed.

(** X29: [remove_session] undoes [add_session] for a configuration that had
    no session, and removing a name twice, or one never added, is a
    [KeyError]. *)
Theorem documents_add_remove (d : Documents.MockDocuments) (session : Session)
    (config_name : string) :
  (Documents._sessions d !! name (config session) = None ->
   Documents.remove_session (name (config session)) (Documents.add_session session d)
     = inr d) /\
  (Documents._sessions d !! config_name = None ->
   Documents.remove_session config_name d = inl (OtherException "KeyError")) /\
  (forall d', Documents.remove_session config_name d = inr d' ->
     Documents.remove_session config_name d' = inl (OtherException "KeyError")).
Proof.
  unfold Documents.remove_session, Documents.add_session. split; [|split].
  - intros Hnone. simpl. rewrite lookup_insert_eq, delete_insert_id by done.
    by destruct d.
  - by intros ->.
  - intros d'. destruct (Documents._sessions d !! config_name); [|done].
    intros [= <-]. simpl. by rewrite lookup_delete_eq.
Qed.

(* ===================================================================== *)
(** ** The properties above, at the fixtures *)
(* ===================================================================== *)

Lemma create_session_spawn_failure_witness :
  create_session TestSession.pid TestSession.filename_to_uri [] []
    TestSession.no_server TestBranches.listening TestSession.quiet_terminate
    TestSession.tcp_config "/" ∅ TestSession.settings None None
    (Some TestSession.mock_client) []
  = (Ok None, [] ++ [Ev_start_server ["server"; "--port"; "9000"] "/" ∅ false]).
Proof.
  apply (create_session_spawn_failure TestSession.pid TestSession.filename_to_uri [] []
           TestSession.no_server TestBranches.listening TestSession.quiet_terminate
           TestSession.tcp_config "/" ∅ TestSession.settings None None
           (Some TestSession.mock_client) []);
    [discriminate | reflexivity].
Defined.

Lemma create_session_tcp_only_witness :
  create_session TestSession.pid TestSession.filename_to_uri [] []
    TestSession.no_server TestSession.no_transport TestSession.quiet_terminate
    TestBranches.tcp_only_config "/" ∅ TestSession.settings None None
    (Some TestSession.mock_client) []
  = (Ok (Some (fresh_session TestBranches.tcp_only_config "/"
                 (new_Client (rpc_Client None)) None None)),
     [] ++ [Ev_start_tcp_transport 9000 None]
        ++ setup_events
        ++ [Ev_send_request
              (Request_initialize
                 (get_initialize_params TestSession.pid TestSession.filename_to_uri [] []
                    "/" TestBranches.tcp_only_config))
              bound__handle_initialize_result None]).
Proof.
  apply (create_session_tcp_only TestSession.pid TestSession.filename_to_uri [] []
           TestSession.no_server TestSession.no_transport TestSession.quiet_terminate
           TestBranches.tcp_only_config "/" ∅ TestSession.settings None None
           (Some TestSession.mock_client) 9000 []);
    reflexivity.
Defined.

Lemma create_session_bootstrap_ignored_witness :
  create_session TestSession.pid TestSession.filename_to_uri [] []
    TestSession.spawning_server TestSession.no_transport TestSession.quiet_terminate
    TestSession.stdio_config "/" ∅ TestSession.settings None None
    (Some TestSession.mock_client) []
  = create_session TestSession.pid TestSession.filename_to_uri [] []
      TestSession.spawning_server TestSession.no_transport TestSession.quiet_terminate
      TestSession.stdio_config "/" ∅ TestSession.settings None None None [].
Proof.
  apply (create_session_bootstrap_ignored TestSession.pid TestSession.filename_to_uri [] []
           TestSession.spawning_server TestSession.no_transport TestSession.quiet_terminate
           TestSession.stdio_config "/" ∅ TestSession.settings None None
           (Some TestSession.mock_client) None []).
  left. discriminate.
Defined.

Lemma create_session_returns_well_made_witness :
  well_made TestSession.test_config "/" (Some TestSession.created_callback)
    (Some TestSession.ended_callback) TestSession.session /\
  exists evs, TestSession.setUp.2 = [] ++ evs /\ terminate_calls evs = [].
Proof.
  apply (create_session_returns_well_made TestSession.pid TestSession.filename_to_uri [] []
           TestSession.no_server TestSession.no_transport TestSession.quiet_terminate
           TestSession.test_config "/" ∅ TestSession.settings
           (Some TestSession.created_callback) (Some TestSession.ended_callback)
           (Some TestSession.mock_client) [] TestSession.setUp.2 TestSession.session).
  vm_compute. reflexivity.
Defined.

Lemma create_session_stdio_witness :
  create_session TestSession.pid TestSession.filename_to_uri [] []
    TestSession.spawning_server TestSession.no_transport TestSession.quiet_terminate
    TestSession.stdio_config "/" ∅ TestSession.settings
    (Some TestSession.created_callback) (Some TestSession.ended_callback) None []
  = (Ok (Some TestSession.starting_session),
     [] ++ [Ev_start_server ["server"] "/" ∅ false; Ev_attach_stdio_client 7%nat]
        ++ setup_events
        ++ [Ev_send_request
              (Request_initialize
                 (get_initialize_params TestSession.pid TestSession.filename_to_uri [] []
                    "/" TestSession.stdio_config))
              bound__handle_initialize_result None]) /\
  forall capability,
    has_capability TestSession.starting_session capability = inr false /\
    get_capability TestSession.starting_session capability = inr VNone.
Proof.
  apply (create_session_stdio TestSession.pid TestSession.filename_to_uri [] []
           TestSession.spawning_server TestSession.no_transport TestSession.quiet_terminate
           TestSession.stdio_config "/" ∅ TestSession.settings
           (Some TestSession.created_callback) (Some TestSession.ended_callback)
           None 7%nat []);
    [discriminate | reflexivity | reflexivity].
Defined.

Lemma create_session_tcp_success_witness :
  exists evs,
    create_session TestSession.pid TestSession.filename_to_uri [] []
      TestSession.spawning_server TestBranches.listening TestSession.failing_terminate
      TestSession.tcp_config "/" ∅ TestSession.settings None None None []
      = (Ok (Some (fresh_session TestSession.tcp_config "/"
                     (new_Client (rpc_Client (Some 3%nat))) None None)),
         [] ++ evs) /\
    evs = [Ev_start_server ["server"; "--port"; "9000"] "/" ∅ false;
           Ev_start_tcp_transport 9000 (Some "localhost")]
          ++ setup_events
          ++ [Ev_send_request
                (Request_initialize
                   (get_initialize_params TestSession.pid TestSession.filename_to_uri [] []
                      "/" TestSession.tcp_config))
                bound__handle_initialize_result None] /\
    terminate_calls evs = [].
Proof.
  apply (create_session_tcp_success TestSession.pid TestSession.filename_to_uri [] []
           TestSession.spawning_server TestBranches.listening TestSession.failing_terminate
           TestSession.tcp_config "/" ∅ TestSession.settings None None None
           7%nat 9000 3%nat []);
    [discriminate | reflexivity | reflexivity | reflexivity].
Defined.

Lemma create_session_mock_handshake_witness :
  exists s evs,
    create_session TestSession.pid TestSession.filename_to_uri [] []
      TestSession.no_server TestSession.no_transport TestSession.quiet_terminate
      TestSession.test_config "/" ∅ TestSession.settings
      (Some TestSession.created_callback) (Some TestSession.ended_callback)
      (Some TestSession.mock_client) []
      = (Ok (Some s), [] ++ evs) /\
    state s = READY /\
    capabilities s = default (VDict ∅) (TestSession.initialize_response !! "capabilities") /\
    client s = Some (with_handlers TestSession.mock_client) /\
    on_created_calls evs = [(TestSession.created_callback, s)].
Proof.
  apply (create_session_mock_handshake TestSession.pid TestSession.filename_to_uri [] []
           TestSession.no_server TestSession.no_transport TestSession.quiet_terminate
           TestSession.test_config "/" ∅ TestSession.settings
           (Some TestSession.created_callback) (Some TestSession.ended_callback)
           TestSession.mock_client TestSession.responses TestSession.initialize_response []);
    [reflexivity | reflexivity | reflexivity | vm_compute; reflexivity].
Defined.

Lemma create_session_mock_without_response_witness :
  exists evs,
    create_session TestSession.pid TestSession.filename_to_uri [] []
      TestSession.no_server TestSession.no_transport TestSession.quiet_terminate
      TestSession.test_config "/" ∅ TestSession.settings
      (Some TestSession.created_callback) None (Some TestBranches.silent_mock) []
      = (Raise AttributeError, [] ++ evs) /\
    on_created_calls evs = [].
Proof.
  apply (create_session_mock_without_response
           TestSession.pid TestSession.filename_to_uri [] []
           TestSession.no_server TestSession.no_transport TestSession.quiet_terminate
           TestSession.test_config "/" ∅ TestSession.settings
           (Some TestSession.created_callback) None TestBranches.silent_mock ∅ []);
    reflexivity.
Defined.

Lemma shutdown_clears_every_capability_witness :
  let w' := (shutdown_round_trip failure
               {| self := TestSession.stdio_session; trace := [] |}).2 in
  has_capability (self w') "testing" = inr false /\
  get_capability (self w') "testing" = inr VNone.
Proof.
  apply (shutdown_clears_every_capability TestSession.stdio_session TestSession.stdio_client
           [] failure "testing").
  reflexivity.
Defined.

Lemma end_after_shutdown_raises_witness :
  let w' := (shutdown_round_trip (success VNone)
               {| self := TestSession.stdio_session; trace := [] |}).2 in
  end_ w' = (Raise AttributeError, w').
Proof.
  apply (end_after_shutdown_raises TestSession.stdio_session TestSession.stdio_client
           [] (success VNone)).
  reflexivity.
Defined.

Lemma second_shutdown_completion_raises_witness :
  let w' := (shutdown_round_trip (success VNone)
               {| self := TestSession.stdio_session; trace := [] |}).2 in
  complete_last_request failure w' = (Raise AttributeError, w').
Proof.
  apply (second_shutdown_completion_raises TestSession.stdio_session
           TestSession.stdio_client [] (success VNone) failure).
  reflexivity.
Defined.

Lemma initialize_result_not_a_dict_witness :
  call bound__handle_initialize_result [VNone]
    {| self := TestSession.starting_session; trace := [] |}
  = (Raise AttributeError,
     {| self := set_state READY TestSession.starting_session; trace := [] |}).
Proof.
  apply (initialize_result_not_a_dict TestSession.starting_session [] VNone).
  reflexivity.
Defined.

Lemma late_handshake_leaves_READY_witness :
  exists w',
    (end_;;;
     call bound__handle_initialize_result [VDict TestSession.initialize_response];;;
     complete_last_request failure)
      {| self := TestSession.starting_session; trace := [] |} = (Ok tt, w') /\
    state (self w') = READY /\
    client (self w') = None /\
    capabilities (self w') = VDict ∅.
Proof.
  apply (late_handshake_leaves_READY TestSession.starting_session TestSession.stdio_client
           [] TestSession.initialize_response failure);
    reflexivity.
Defined.

Lemma show_message_request_without_actions_witness :
  call bound__handle_show_message_request
    [VDict TestBranches.request_without_actions; VInt 5]
    {| self := TestSession.stdio_session; trace := [] |}
  = (Ok tt, {| self := TestSession.stdio_session; trace := [] |}).
Proof.
  apply (show_message_request_without_actions TestBranches.request_without_actions (VInt 5)
           {| self := TestSession.stdio_session; trace := [] |}).
  vm_compute. reflexivity.
Defined.

Lemma show_message_request_malformed_action_witness :
  call bound__handle_show_message_request
    [VDict TestBranches.request_with_bad_action; VInt 5]
    {| self := TestSession.stdio_session; trace := [] |}
  = (Raise AttributeError, {| self := TestSession.stdio_session; trace := [] |}).
Proof.
  apply (show_message_request_malformed_action TestBranches.request_with_bad_action (VInt 5)
           [VDict TestSession.yes; VStr "No"]
           {| self := TestSession.stdio_session; trace := [] |});
    [vm_compute; reflexivity | reflexivity].
Defined.

Lemma send_user_choice_out_of_range_witness :
  call (send_user_choice_closure (VInt 5) TestBranches.titles) [VInt 2]
    {| self := TestSession.stdio_session; trace := [] |}
  = (Raise IndexError, {| self := TestSession.stdio_session; trace := [] |}).
Proof.
  apply (send_user_choice_out_of_range (VInt 5) TestBranches.titles 2
           {| self := TestSession.stdio_session; trace := [] |});
    [lia | left; simpl; lia].
Defined.


Lemma send_user_choice_after_shutdown_witness :
  call (send_user_choice_closure (VInt 5) TestBranches.titles) [VInt 1]
    {| self := after_shutdown TestSession.stdio_session; trace := [] |}
    = (Raise AttributeError,
       {| self := after_shutdown TestSession.stdio_session; trace := [] |}) /\
  call (send_user_choice_closure (VInt 5) TestBranches.titles) [VInt (-1)]
    {| self := after_shutdown TestSession.stdio_session; trace := [] |}
    = (Ok tt, {| self := after_shutdown TestSession.stdio_session; trace := [] |}).
Proof.
  apply (send_user_choice_after_shutdown (after_shutdown TestSession.stdio_session) []
           (VInt 5) TestBranches.titles 1 (VStr "No"));
    [reflexivity | lia | reflexivity].
Defined.

Lemma has_and_get_capability_witness :
  exists b,
    has_capability TestSession.session "completionProvider" = inr b /\
    get_capability TestSession.session "completionProvider"
      = inr (default VNone (TestSession.server_capabilities !! "completionProvider")) /\
    (b = true ->
     is_Some (TestSession.server_capabilities !! "completionProvider") /\
     TestSession.server_capabilities !! "completionProvider" <> Some (VBool false)) /\
    (b = false ->
     TestSession.server_capabilities !! "completionProvider" = None \/
     TestSession.server_capabilities !! "completionProvider" = Some (VBool false)) /\
    (TestSession.server_capabilities !! "completionProvider" = Some VNone -> b = true).
Proof.
  apply (has_and_get_capability TestSession.session TestSession.server_capabilities
           "completionProvider").
  reflexivity.
Defined.

Lemma null_capabilities_break_queries_witness :
  exists w',
    call bound__handle_initialize_result [VDict TestBranches.null_capabilities]
      {| self := TestSession.starting_session; trace := [] |} = (Ok tt, w') /\
    state (self w') = READY /\
    on_created_calls (trace w') = on_created_calls [] ++
      [(TestSession.created_callback, self w')] /\
    has_capability (self w') "testing" = inl TypeError /\
    get_capability (self w') "testing" = inl AttributeError.
Proof.
  apply (null_capabilities_break_queries TestSession.starting_session []
           TestBranches.null_capabilities "testing").
  vm_compute. reflexivity.
Defined.
